(** * Shippable-to-Azure migration tool: classification and template compaction

    A shallow embedding of [migrate.py]: the matrix entry decoder
    ([parse_shippable_matrix]), the entry classifier ([get_test_config],
    [classify_matrix_item]), the properties of [TestConfig], the stage
    aggregator and the template computation of [generate_stages], together
    with the properties stated about them.

    Python values are modelled as follows.  [str] is [string] (a sequence of
    bytes; the inputs of interest are ASCII), [Optional[str]] is
    [option string], a tuple or list of strings is [list string], a [dict]
    keyed by strings is an association list in insertion order with unique
    keys, a [set] of strings is a duplicate-free list, and a raised exception
    is the [Err] case of [result]. *)

From Stdlib Require Import String Ascii List Bool Arith Lia ZArith.
From Stdlib Require Import Permutation Sorted.
Import ListNotations.

Local Open Scope list_scope.
Local Open Scope string_scope.

(** ** Exceptions *)

(** One constructor per [raise] site of the source, plus the built-in
    exceptions that the modelled expressions can raise. *)
Inductive error : Type :=
| IndexError
    (* indexing an empty tuple: parts[0], prefix[-1] *)
| KeyError (key : string)
    (* values.pop('T') on a mapping without 'T' *)
| ValueError
    (* dict(...) over an element that is not a pair *)
| TypeError
    (* None + str in test_components *)
| AttributeError
    (* None.replace in test_components *)
| UnrecognizedEnvKey (values : list (string * string))
    (* 'Unrecognized matrix key/value pairs detected' *)
| UnknownTestType (test_type : string) (parts : list string)
    (* 'Unknown test type ... extracted from test parts' *)
| UnhandledArity (test_type : string) (parts : list string)
    (* 'Unhandled test type ... with test parameters' *)
| UnexpectedParameters (parts : list string)
    (* 'Unexpected test parameters' *)
| UnknownDockerAlias (version : string) (parts : list string)
    (* 'Unexpected docker container reference' *)
| ReconstructionMismatch (reconstructed original : string)
    (* 'The post-processed test entry ... does not match the original' *)
| MissingScript (test_type script_path : string)
    (* 'Detected test type ... does not have matching script' *)
| StageIncidentalConflict (stage_name : string) (stage_flag item_flag : bool)
    (* first 'has a test mismatch' of generate_stages *)
| TargetTypeConflict (target_name stage_type item_type : string)
    (* second 'has a test mismatch' of generate_stages *)
| MatrixCountMismatch (found converted : nat).
    (* 'Found ... jobs but only converted ...' *)

Inductive result (A : Type) : Type :=
| Ok (a : A)
| Err (e : error).

Arguments Ok {A} a.
Arguments Err {A} e.

Definition bind {A B : Type} (r : result A) (k : A -> result B) : result B :=
  match r with
  | Ok a => k a
  | Err e => Err e
  end.

Notation "x <- r ;; k" := (bind r (fun x => k))
  (at level 61, r at next level, right associativity).
Notation "' p <- r ;; k" := (bind r (fun x => let 'p := x in k))
  (at level 61, p pattern, r at next level, right associativity).

Fixpoint mapM {A B : Type} (f : A -> result B) (l : list A) : result (list B) :=
  match l with
  | [] => Ok []
  | a :: l' => b <- f a ;; bs <- mapM f l' ;; Ok (b :: bs)
  end.

(** ** Python string operations *)

Module Py.

(** [s.split(sep)] for a one-character separator: every occurrence of the
    separator cuts, so the result has one more piece than there are
    separators, and the empty string splits into one empty piece. *)
Fixpoint split (sep : ascii) (s : string) : list string :=
  match s with
  | EmptyString => [EmptyString]
  | String c s' =>
      if Ascii.eqb c sep then EmptyString :: split sep s'
      else match split sep s' with
           | piece :: pieces => String c piece :: pieces
           | [] => [String c EmptyString]
           end
  end.

(** [sep.join(parts)]. *)
Definition join (sep : string) (parts : list string) : string :=
  String.concat sep parts.

(** [c in s] for a one-character string [c]. *)
Fixpoint contains (c : ascii) (s : string) : bool :=
  match s with
  | EmptyString => false
  | String a s' => Ascii.eqb a c || contains c s'
  end.

(** [s[n:]]: slicing past the end gives the empty string. *)
Fixpoint drop (n : nat) (s : string) : string :=
  match n, s with
  | O, _ => s
  | S _, EmptyString => EmptyString
  | S n', String _ s' => drop n' s'
  end.

(** [s.replace(old, new)]: occurrences of [old] are found from left to right
    and do not overlap.  [skip] counts the characters of a match that are
    still to be passed over. *)
Fixpoint replace_from (old new : string) (skip : nat) (s : string) : string :=
  match s with
  | EmptyString => EmptyString
  | String c s' =>
      match skip with
      | S k => replace_from old new k s'
      | O =>
          if String.prefix old s
          then new ++ replace_from old new (String.length old - 1) s'
          else String c (replace_from old new 0 s')
      end
  end.

Fixpoint intersperse (new : string) (s : string) : string :=
  match s with
  | EmptyString => new
  | String c s' => new ++ String c (intersperse new s')
  end.

Definition replace (old new s : string) : string :=
  match old with
  | EmptyString => intersperse new s
  | String _ _ => replace_from old new 0 s
  end.

Definition lower_ascii (c : ascii) : ascii :=
  let n := nat_of_ascii c in
  if ((65 <=? n)%nat && (n <=? 90)%nat)%bool then ascii_of_nat (n + 32) else c.

(** [s.lower()] on ASCII text. *)
Fixpoint lower (s : string) : string :=
  match s with
  | EmptyString => EmptyString
  | String c s' => String (lower_ascii c) (lower s')
  end.

(** Truth value of a string and of an [Optional[str]]: [None] and the empty
    string are false. *)
Definition truthy (s : string) : bool :=
  match s with
  | EmptyString => false
  | String _ _ => true
  end.

Definition truthy_opt (o : option string) : bool :=
  match o with
  | Some s => truthy s
  | None => false
  end.

(** [x in tuple_of_strings]. *)
Definition mem (x : string) (l : list string) : bool :=
  existsb (String.eqb x) l.

(** [os.path.join(a, b)] on POSIX. *)
Definition path_join (a b : string) : string :=
  if String.prefix "/" b then b
  else match a with
       | EmptyString => b
       | _ => if String.eqb (String.substring (String.length a - 1) 1 a) "/"
              then a ++ b else a ++ "/" ++ b
       end.

End Py.

(** ** Dictionaries in insertion order *)

Definition dict (V : Type) : Type := list (string * V).

Fixpoint dict_get {V : Type} (k : string) (d : dict V) : option V :=
  match d with
  | [] => None
  | (k', v) :: d' => if String.eqb k k' then Some v else dict_get k d'
  end.

(** [d[k] = v]: an existing key keeps its position, a new key goes last. *)
Fixpoint dict_set {V : Type} (k : string) (v : V) (d : dict V) : dict V :=
  match d with
  | [] => [(k, v)]
  | (k', v') :: d' =>
      if String.eqb k k' then (k, v) :: d' else (k', v') :: dict_set k v d'
  end.

(** [d.pop(k)] on a present key, [del d[k]]. *)
Fixpoint dict_remove {V : Type} (k : string) (d : dict V) : dict V :=
  match d with
  | [] => []
  | (k', v') :: d' =>
      if String.eqb k k' then d' else (k', v') :: dict_remove k d'
  end.

(** [dict(pairs)]: pairs are inserted from left to right. *)
Definition dict_of_pairs {V : Type} (pairs : list (string * V)) : dict V :=
  fold_left (fun d kv => dict_set (fst kv) (snd kv) d) pairs [].

Definition dict_values {V : Type} (d : dict V) : list V := map snd d.

(** ** Lookup tables *)

(** Shippable test script name to (stage label, job label). *)
Definition test_types : dict (string * string) :=
  [ ("sanity", ("Sanity", "Test"));
    ("units", ("Units", "Python"));
    ("windows", ("Windows", "Server"));
    ("osx", ("Remote", "OS X"));
    ("macos", ("Remote", "macOS"));
    ("rhel", ("Remote", "RHEL"));
    ("freebsd", ("Remote", "FreeBSD"));
    ("linux", ("Docker", EmptyString));
    ("fallaxy", ("Fallaxy", "Python"));
    ("galaxy", ("Galaxy", "Python"));
    ("generic", ("Generic", "Python"));
    ("network", ("Network", "Python"));
    ("aws", ("AWS", "Python"));
    ("vcenter", ("vCenter", "Python"));
    ("cs", ("CloudStack", "Python"));
    ("tower", ("Tower", "Python"));
    ("cloud", ("Cloud", "Python"));
    ("hcloud", ("Hetzner", "Python"));
    ("ios", ("IOS", "Python"));
    ("vyos", ("VyOS", "Python"));
    ("azure", ("Azure", "Python")) ].

(** Docker container short name to (job label, version). *)
Definition docker_types : dict (string * string) :=
  [ ("alpine3", ("Alpine", "3"));
    ("centos6", ("CentOS", "6"));
    ("centos7", ("CentOS", "7"));
    ("centos8", ("CentOS", "8"));
    ("fedora29", ("Fedora", "29"));
    ("fedora30", ("Fedora", "30"));
    ("fedora31", ("Fedora", "31"));
    ("fedora32", ("Fedora", "32"));
    ("ubuntu1604", ("Ubuntu", "16.04"));
    ("ubuntu1804", ("Ubuntu", "18.04"));
    ("opensuse15", ("openSUSE", "15"));
    ("opensuse15py2", ("openSUSE", "15 py2")) ].

(** Stage labels that get an incidental stage of their own. *)
Definition split_incidental : list string := [ "Docker"; "Remote"; "Windows" ].

(** The local tuple [ansible_branches] of [classify_matrix_item]. *)
Definition ansible_branches : list string :=
  [ "devel"; "stable-2.10"; "stable-2.9"; "2.10"; "2.9" ].

(** ** TestConfig *)

Record TestConfig : Type := mkTestConfig {
  stage_label : string;
  job_label : string;
  type : string;
  platform : option string;
  version : option string;
  group : option string;
  incidental : bool;
  branch_prefix : option string;
  branch_kvp : option (string * string)
}.

(** Property [branch_name]. *)
Definition branch_name (c : TestConfig) : option string :=
  let branch :=
    if Py.truthy_opt (branch_prefix c) then branch_prefix c
    else match branch_kvp c with
         | Some (_, value) => Some value
         | None => None
         end in
  if Py.truthy_opt branch
  then option_map (Py.replace "stable-" EmptyString) branch
  else branch.

(** Property [stage_name]. *)
Definition stage_name (c : TestConfig) : string :=
  let stage_name := stage_label c in
  let stage_name :=
    match branch_name c with
    | Some b => if Py.truthy b then stage_name ++ " " ++ b else stage_name
    | None => stage_name
    end in
  if incidental c then
    if Py.mem (stage_label c) split_incidental
    then "Incidental " ++ stage_name
    else "Incidental"
  else stage_name.

(** Property [name_components]. *)
Definition name_components (c : TestConfig) : list string :=
  let parts := [job_label c] in
  let parts :=
    if incidental c && negb (Py.mem (stage_label c) split_incidental)
    then stage_label c :: parts
    else parts in
  match version c with
  | Some v =>
      if Py.truthy v then
        if String.eqb (type c) "linux" && String.eqb (job_label c) "openSUSE"
           && String.eqb v "15"
        then (parts ++ ["15 py3"])%list
        else (parts ++ [v])%list
      else parts
  | None => parts
  end.

(** The two list comprehensions [part for part in parts if part is not None]. *)
Definition not_none (parts : list (option string)) : list string :=
  flat_map (fun p => match p with Some s => [s] | None => [] end) parts.

(** Property [test_components].  For type [linux] the expression
    [self.platform + self.version.replace(...)] evaluates the call on
    [version] before the addition. *)
Definition test_components (c : TestConfig) : result (list string) :=
  parts <-
    (if String.eqb (type c) "linux" then
       match version c, platform c with
       | None, _ => Err AttributeError
       | Some _, None => Err TypeError
       | Some v, Some p =>
           Ok [Some (type c);
               Some (p ++ Py.replace "." EmptyString (Py.replace " " EmptyString v))]
       end
     else Ok [Some (type c); platform c; version c]) ;;
  let parts := not_none parts in
  let parts := if incidental c then "i" :: parts else parts in
  let parts :=
    match branch_prefix c with
    | Some b => if Py.truthy b then b :: parts else parts
    | None => parts
    end in
  Ok parts.

(** Property [test]. *)
Definition test (c : TestConfig) : result string :=
  parts <- test_components c ;;
  let parts :=
    match group c with
    | Some g => if Py.truthy g then (parts ++ [g])%list else parts
    | None => parts
    end in
  Ok (Py.join "/" parts).

(** ** Matrix entry decoder *)

Module MatrixItem.
Record t : Type := mk {
  raw : string;
  test : string;
  values : dict string;
  parts : list string
}.
End MatrixItem.

(** What [dict(...)] requires of each element [kvp.split('=')]: a sequence of
    exactly two items. *)
Definition dict_item (kvp : string) : result (string * string) :=
  match Py.split "=" kvp with
  | [key; value] => Ok (key, value)
  | _ => Err ValueError
  end.

(** [values.pop('T')]. *)
Definition dict_pop {V : Type} (k : string) (d : dict V) : result (V * dict V) :=
  match dict_get k d with
  | Some v => Ok (v, dict_remove k d)
  | None => Err (KeyError k)
  end.

(** The body of the loop of [parse_shippable_matrix], on the string
    [item['env']] of one entry of the YAML document. *)
Definition parse_matrix_item (raw : string) : result MatrixItem.t :=
  pairs <- mapM dict_item (Py.split " " raw) ;;
  let values := dict_of_pairs pairs in
  '(test, values) <- dict_pop "T" values ;;
  let parts := Py.split "/" test in
  Ok (MatrixItem.mk raw test values parts).

(** [parse_shippable_matrix] on the [env] strings of [matrix.include], which
    the YAML reader delivers. *)
Definition parse_shippable_matrix (matrix_include : list string)
  : result (list MatrixItem.t) :=
  mapM parse_matrix_item matrix_include.

(** ** Entry classifier *)

(** The assignment of the remaining path segments to [platform], [version]
    and [group] in [get_test_config], by their number. *)
Definition decode_parts (test_type job_label : string) (parts : list string)
  : result (option string * option string * option string) :=
  match parts with
  | [] => Ok (None, None, None)
  | [p] =>
      if String.eqb job_label "Python" then
        if Py.contains "." p then Ok (None, Some p, None)
        else Ok (None, None, Some p)
      else Ok (None, Some p, None)
  | [v; g] => Ok (None, Some v, Some g)
  | [pl; v; g] => Ok (Some pl, Some v, Some g)
  | _ => Err (UnhandledArity test_type parts)
  end.

Definition get_test_config (test_type : string) (parts : list string)
    (incidental : bool) (branch_prefix : option string)
    (branch_kvp : option (string * string)) : result TestConfig :=
  match dict_get test_type test_types with
  | None => Err (UnknownTestType test_type parts)
  | Some (stage_label, job_label) =>
      '(platform, version, group) <- decode_parts test_type job_label parts ;;
      if String.eqb test_type "linux" then
        if Py.truthy_opt platform || negb (Py.truthy_opt version)
        then Err (UnexpectedParameters parts)
        else
          match version with
          | None => Err (UnexpectedParameters parts)
          | Some alias =>
              match dict_get alias docker_types with
              | None => Err (UnknownDockerAlias alias parts)
              | Some (docker_name, docker_version) =>
                  Ok (mkTestConfig stage_label docker_name test_type
                        (Some (Py.lower docker_name)) (Some docker_version)
                        group incidental branch_prefix branch_kvp)
              end
          end
      else
        Ok (mkTestConfig stage_label job_label test_type platform version
              group incidental branch_prefix branch_kvp)
  end.

(** [parts[0]]. *)
Definition first (parts : list string) : result string :=
  match parts with
  | p :: _ => Ok p
  | [] => Err IndexError
  end.

(** The loop over [values.items()] that looks for a branch among the values:
    the first pair, in insertion order, whose value is a recognised branch. *)
Definition find_branch (values : dict string) : option (string * string) :=
  find (fun kv => Py.mem (snd kv) ansible_branches) values.

(** Branch resolution, the first step of [classify_matrix_item]: the branch
    prefix, the branch pair, and the parts and values that remain. *)
Definition resolve_branch (parts : list string) (values : dict string)
  : result (option string * option (string * string)
            * list string * dict string) :=
  p0 <- first parts ;;
  Ok (if Py.mem p0 ansible_branches then (Some p0, None, tl parts, values)
      else match find_branch values with
           | Some (key, value) =>
               (None, Some (key, value), parts, dict_remove key values)
           | None => (None, None, parts, values)
           end).

(** The incidental marker and the type token, then [get_test_config].
    Returns the descriptor with the local variable [test_type]. *)
Definition decode_path (branch_prefix : option string)
    (branch_kvp : option (string * string)) (parts : list string)
  : result (TestConfig * string) :=
  p0 <- first parts ;;
  let '(incidental, parts) :=
    if String.eqb p0 "i" then (true, tl parts) else (false, parts) in
  test_type <- first parts ;;
  let parts := tl parts in
  test_config <-
    get_test_config test_type parts incidental branch_prefix branch_kvp ;;
  Ok (test_config, test_type).

(** [classify_matrix_item] up to the call of [get_test_config]: branch
    resolution, the check for unused pairs, and the decoding of the path. *)
Definition decode_matrix_item (matrix_item : MatrixItem.t)
  : result (TestConfig * string) :=
  '(branch_prefix, branch_kvp, parts, values) <-
    resolve_branch (MatrixItem.parts matrix_item)
      (MatrixItem.values matrix_item) ;;
  match values with
  | _ :: _ => Err (UnrecognizedEnvKey values)
  | [] => decode_path branch_prefix branch_kvp parts
  end.

(** [classify_matrix_item].  [path_exists] stands for [os.path.exists] on the
    working tree. *)
Definition classify_matrix_item (path_exists : string -> bool) (path : string)
    (is_collection : bool) (matrix_item : MatrixItem.t) : result TestConfig :=
  '(test_config, test_type) <- decode_matrix_item matrix_item ;;
  reconstructed <- test test_config ;;
  if negb (String.eqb (MatrixItem.test matrix_item) reconstructed)
  then Err (ReconstructionMismatch reconstructed (MatrixItem.test matrix_item))
  else
    let script_directory :=
      if is_collection then Py.path_join path "tests/utils/shippable"
      else Py.path_join path "test/utils/shippable" in
    let script_directory :=
      if incidental test_config
      then Py.path_join script_directory "incidental"
      else script_directory in
    let script_path := Py.path_join script_directory (test_type ++ ".sh") in
    if negb (path_exists script_path)
    then Err (MissingScript test_type script_path)
    else Ok test_config.

(** The list comprehension of [main] that classifies the parsed matrix. *)
Definition classify_matrix (path_exists : string -> bool) (path : string)
    (is_collection : bool) (parsed_matrix : list MatrixItem.t)
  : result (list TestConfig) :=
  mapM (classify_matrix_item path_exists path is_collection) parsed_matrix.

(** ** Stages and targets *)

Module Target.
Record t : Type := mk {
  name : string;
  type : string
}.
End Target.

Module Stage.
(** [groups] is a set in the source.  The list that stands for it holds
    each member once; the order of the list is not an order of the set, and
    the code reads the set only through its size, its single member when it
    has one, and [sorted]. *)
Record t : Type := mk {
  name : string;
  incidental : bool;
  targets : dict Target.t;
  configs : list TestConfig;
  groups : list string
}.

(** [Stage(name, incidental)] with the default fields. *)
Definition new (name : string) (incidental : bool) : t :=
  mk name incidental [] [] [].

Definition target_count (s : t) : nat := length (targets s).

(** [len(self.groups) or 1]. *)
Definition group_count (s : t) : nat :=
  match length (groups s) with
  | O => 1
  | S n => S n
  end.

Definition job_count (s : t) : nat := target_count s * group_count s.
End Stage.

(** [groups.add(g)] on a set kept as a duplicate-free list. *)
Definition set_add (g : string) (groups : list string) : list string :=
  if Py.mem g groups then groups else (groups ++ [g])%list.

(** [d.setdefault(k, default)]: the stored value when there is one. *)
Definition setdefault {V : Type} (k : string) (default : V) (d : dict V) : V :=
  match dict_get k d with
  | Some v => v
  | None => default
  end.

(** ** Stage aggregator *)

(** The body of the first loop of [generate_stages].  The stage object is
    shared with the mapping, so its updated value is stored back under its
    name; a stage or target that already exists keeps its position. *)
Definition fold_item (stages : dict Stage.t) (item : TestConfig)
  : result (dict Stage.t) :=
  let stage :=
    setdefault (stage_name item)
      (Stage.new (stage_name item) (incidental item)) stages in
  if negb (Bool.eqb (Stage.incidental stage) (incidental item))
  then Err (StageIncidentalConflict (stage_name item)
              (Stage.incidental stage) (incidental item))
  else
    let configs := (Stage.configs stage ++ [item])%list in
    let target_name := Py.join " " (name_components item) in
    components <- test_components item ;;
    let test_type := Py.join "/" components in
    let target :=
      setdefault target_name (Target.mk target_name test_type)
        (Stage.targets stage) in
    let targets := dict_set target_name target (Stage.targets stage) in
    if negb (String.eqb (Target.type target) test_type)
    then Err (TargetTypeConflict target_name (Target.type target) test_type)
    else
      let groups :=
        match group item with
        | Some g =>
            if Py.truthy g then set_add g (Stage.groups stage)
            else Stage.groups stage
        | None => Stage.groups stage
        end in
      Ok (dict_set (stage_name item)
            (Stage.mk (Stage.name stage) (Stage.incidental stage)
               targets configs groups)
            stages).

Fixpoint fold_items (stages : dict Stage.t) (items : list TestConfig)
  : result (dict Stage.t) :=
  match items with
  | [] => Ok stages
  | item :: items' =>
      stages' <- fold_item stages item ;; fold_items stages' items'
  end.

(** The first loop of [generate_stages], from the empty mapping. *)
Definition aggregate (classified_matrix : list TestConfig)
  : result (dict Stage.t) :=
  fold_items [] classified_matrix.

(** [sum(stage.job_count for stage in stages.values())]. *)
Definition converted_jobs (stages : dict Stage.t) : nat :=
  list_sum (map Stage.job_count (dict_values stages)).

(** ** Value coercion *)

(** What [clean_value] returns.  A float is kept as the literal it was read
    from: its numeric value plays no part below, and two literals of one
    number, such as [3.10] and [3.1], stay apart here where the code has
    one float for both. *)
Inductive value : Type :=
| VInt (z : Z)
| VFloat (literal : string)
| VStr (s : string).

Module Num.

Definition code (c : ascii) : nat := nat_of_ascii c.

(** White space that [int] and [float] strip from both ends of an ASCII
    string: tab, line feed, vertical tab, form feed, carriage return and
    space. *)
Definition is_space (c : ascii) : bool :=
  ((9 <=? code c)%nat && (code c <=? 13)%nat || (code c =? 32)%nat)%bool.

Definition is_digit (c : ascii) : bool :=
  ((48 <=? code c)%nat && (code c <=? 57)%nat)%bool.

Fixpoint lstrip (s : string) : string :=
  match s with
  | String c s' => if is_space c then lstrip s' else s
  | EmptyString => EmptyString
  end.

Fixpoint rstrip (s : string) : string :=
  match s with
  | EmptyString => EmptyString
  | String c s' =>
      match rstrip s' with
      | EmptyString => if is_space c then EmptyString else String c EmptyString
      | r => String c r
      end
  end.

Definition strip (s : string) : string := rstrip (lstrip s).

(** A run of decimal digits in which single underscores may separate
    digits; [after_digit] tells whether the previous character was a digit. *)
Fixpoint digitpart (after_digit : bool) (acc : Z) (s : string) : option Z :=
  match s with
  | EmptyString => if after_digit then Some acc else None
  | String c s' =>
      if is_digit c
      then digitpart true (10 * acc + Z.of_nat (code c - 48)) s'
      else if (Ascii.eqb c "_" && after_digit)%bool
           then digitpart false acc s'
           else None
  end.

Definition signed (s : string) : bool * string :=
  match s with
  | String "+" s' => (false, s')
  | String "-" s' => (true, s')
  | _ => (false, s)
  end.

(** [int(s)] in base ten, without the limit on the number of digits that
    later interpreters add; [None] stands for [ValueError]. *)
Definition py_int (s : string) : option Z :=
  let '(negative, digits) := signed (strip s) in
  option_map (fun z => if negative then Z.opp z else z)
    (digitpart false 0 digits).

(** Cut at the first character that satisfies [p]. *)
Fixpoint cut (p : ascii -> bool) (s : string) : string * option string :=
  match s with
  | EmptyString => (EmptyString, None)
  | String c s' =>
      if p c then (EmptyString, Some s')
      else let '(a, b) := cut p s' in (String c a, b)
  end.

Definition is_digitpart (s : string) : bool :=
  match digitpart false 0 s with
  | Some _ => true
  | None => false
  end.

Definition is_mantissa (s : string) : bool :=
  match cut (Ascii.eqb ".") s with
  | (a, None) => is_digitpart a
  | (EmptyString, Some b) => is_digitpart b
  | (a, Some EmptyString) => is_digitpart a
  | (a, Some b) => (is_digitpart a && is_digitpart b)%bool
  end.

Definition is_exponent (s : string) : bool :=
  is_digitpart (snd (signed s)).

(** Whether [float(s)] returns: the literals are an optional sign followed
    by [inf], [infinity] or [nan] in any case, or by a decimal number with
    an optional exponent. *)
Definition py_float_ok (s : string) : bool :=
  let body := snd (signed (strip s)) in
  (Py.mem (Py.lower body) ["inf"; "infinity"; "nan"]
   || match cut (fun c => (Ascii.eqb c "e" || Ascii.eqb c "E")%bool) body with
      | (m, None) => is_mantissa m
      | (m, Some e) => (is_mantissa m && is_exponent e)%bool
      end)%bool.

End Num.

Definition clean_value (v : string) : value :=
  match Num.py_int v with
  | Some z => VInt z
  | None => if Num.py_float_ok v then VFloat v else VStr v
  end.

(** [sorted] on strings, by insertion. *)
Fixpoint insert_sorted (x : string) (l : list string) : list string :=
  match l with
  | [] => [x]
  | y :: l' => if String.leb x y then x :: l else y :: insert_sorted x l'
  end.

Definition sorted (l : list string) : list string :=
  fold_right insert_sorted [] l.

Definition clean_values (values : list string) : list value :=
  map clean_value (sorted values).

(** ** Template computation *)

(** [prefix[-1]]. *)
Fixpoint last_item (prefix : list string) : result string :=
  match prefix with
  | [] => Err IndexError
  | [x] => Ok x
  | _ :: prefix' => last_item prefix'
  end.

(** [set(...)] of tuples, as the list of its distinct members. *)
Definition distinct (tuples : list (list string)) : list (list string) :=
  nodup (list_eq_dec string_dec) tuples.

(** The loop [for i in range(1, 10)] over the leading [i] components of
    every config of a stage: [found] is the prefix kept so far, and the loop
    breaks when the leading components differ or end in an empty token. *)
Fixpoint scan_prefix (components : list (list string)) (range : list nat)
    (found : list string) : result (list string) :=
  match range with
  | [] => Ok found
  | i :: range' =>
      match distinct (map (firstn i) components) with
      | [prefix] =>
          l <- last_item prefix ;;
          if negb (Py.truthy l) then Ok found
          else scan_prefix components range' prefix
      | _ => Ok found
      end
  end.

Definition common_prefix (components : list (list string))
  : result (list string) :=
  scan_prefix components (seq 1 9) [].

(** [test_prefix] and [name_prefix] of a stage. *)
Definition test_prefix (stage : Stage.t) : result (list string) :=
  components <- mapM test_components (Stage.configs stage) ;;
  common_prefix components.

Definition name_prefix (stage : Stage.t) : result (list string) :=
  common_prefix (map name_components (Stage.configs stage)).

(** [tuple(s)] of a string: its characters, each as a string. *)
Fixpoint chars (s : string) : list string :=
  match s with
  | EmptyString => []
  | String c s' => String c EmptyString :: chars s'
  end.

(** [test_suffix]: with one group in the stage,
    [tuple(list(stage.groups)[0], )], that is [tuple] applied to the group
    string. *)
Definition test_suffix (stage : Stage.t) : list string :=
  match Stage.groups stage with
  | [g] => chars g
  | _ => []
  end.

(** The local variable [groups]: [None] unless the stage has several
    groups. *)
Definition stage_groups (stage : Stage.t) : option (list value) :=
  match Stage.groups stage with
  | [] => None
  | [_] => None
  | gs => Some (clean_values gs)
  end.

(** [sep.join(prefix + ('{0}',) + suffix)]. *)
Definition format_string (sep : string) (prefix suffix : list string) : string :=
  Py.join sep (prefix ++ ["{0}"] ++ suffix)%list.

(** [test_offset] and [name_offset]. *)
Definition offset (sep : string) (prefix : list string) : nat :=
  match prefix with
  | [] => 0
  | _ => String.length (Py.join sep prefix ++ sep)
  end.

(** The strings [target.type[test_offset:]] and [target.name[name_offset:]]
    that [clean_value] receives. *)
Definition residual_test (prefix : list string) (target : Target.t) : string :=
  Py.drop (offset "/" prefix) (Target.type target).

Definition residual_name (prefix : list string) (target : Target.t) : string :=
  Py.drop (offset " " prefix) (Target.name target).

(** The entries of a content stage, as the loop body computes them.  The
    deletions of redundant keys at the end of the loop body (a [name] equal
    to its [test], a format equal to ['{0}'], empty [groups], a
    [displayName] equal to [stage]) are left out: the record holds the
    value of every key before them, so a field other than [stage] says what
    was computed, not that the key is present in the returned mapping.  The
    key [stage] is never deleted. *)
Record MatrixStage : Type := mkMatrixStage {
  stage : string;
  displayName : string;
  nameFormat : string;
  testFormat : string;
  targets : list (value * value);
  groups : option (list value)
}.

Inductive ContentStage : Type :=
| Matrix (m : MatrixStage)
| Summary (dependsOn : list string).

(** The body of the second loop of [generate_stages]. *)
Definition content_stage (stage : Stage.t) : result MatrixStage :=
  test_prefix <- test_prefix stage ;;
  name_prefix <- name_prefix stage ;;
  let test_format := format_string "/" test_prefix (test_suffix stage) in
  let name_format := format_string " " name_prefix [] in
  let targets :=
    map (fun target =>
           (clean_value (residual_name name_prefix target),
            clean_value (residual_test test_prefix target)))
        (dict_values (Stage.targets stage)) in
  Ok (mkMatrixStage
        (Py.replace "." "_" (Py.replace " " "_" (Stage.name stage)))
        (Stage.name stage) name_format test_format targets
        (stage_groups stage)).

(** What [generate_stages] prints: the job counts on standard output and
    the surplus warning on standard error. *)
Inductive message : Type :=
| Converted (converted_jobs : nat)
| StageJobs (stage_name : string) (target_count group_count job_count : nat)
| Warning (converted_jobs original_jobs : nat).

Definition is_warning (m : message) : bool :=
  match m with
  | Warning _ _ => true
  | _ => false
  end.

Definition content_stage_name (c : ContentStage) : string :=
  match c with
  | Matrix m => stage m
  | Summary _ => "Summary"
  end.

(** [generate_stages]: the printed messages with the returned stages or the
    exception raised. *)
Definition generate_stages (classified_matrix : list TestConfig)
  : list message * result (list ContentStage) :=
  match aggregate classified_matrix with
  | Err e => ([], Err e)
  | Ok stages =>
      let converted_jobs := converted_jobs stages in
      let printed :=
        Converted converted_jobs
        :: map (fun stage =>
                  StageJobs (Stage.name stage) (Stage.target_count stage)
                    (Stage.group_count stage) (Stage.job_count stage))
               (dict_values stages) in
      if (converted_jobs <? length classified_matrix)%nat
      then (printed,
            Err (MatrixCountMismatch (length classified_matrix) converted_jobs))
      else
        let printed :=
          if (length classified_matrix <? converted_jobs)%nat
          then (printed
                ++ [Warning converted_jobs (length classified_matrix)])%list
          else printed in
        (printed,
         content_stages <- mapM content_stage (dict_values stages) ;;
         let content_stages := map Matrix content_stages in
         Ok (content_stages
             ++ [Summary (map content_stage_name content_stages)])%list)
  end.

(** ** Emitted text *)

Module Text.

Definition newline : string := String "010" EmptyString.

Definition double_quote : string := String "034" EmptyString.

(** The line boundaries of [str.splitlines] among the ASCII characters:
    line feed, vertical tab, form feed, carriage return and the file, group
    and record separators.  (The boundaries beyond ASCII are outside this
    model of strings.) *)
Definition is_linebreak (c : ascii) : bool :=
  let n := nat_of_ascii c in
  ((10 <=? n)%nat && (n <=? 13)%nat || (28 <=? n)%nat && (n <=? 30)%nat)%bool.

(** [s.splitlines()]: the text is cut at every line boundary, a carriage
    return followed by a line feed counting as one, and there is no last
    empty line after a final boundary. *)
Fixpoint splitlines (s : string) : list string :=
  match s with
  | EmptyString => []
  | String c s' =>
      if is_linebreak c then
        EmptyString
        :: match s' with
           | String c' s'' =>
               if (Ascii.eqb c "013" && Ascii.eqb c' "010")%bool
               then splitlines s'' else splitlines s'
           | EmptyString => splitlines s'
           end
      else match splitlines s' with
           | line :: lines => String c line :: lines
           | [] => [String c EmptyString]
           end
  end.

Fixpoint has_linebreak (s : string) : bool :=
  match s with
  | EmptyString => false
  | String c s' => (is_linebreak c || has_linebreak s')%bool
  end.

Fixpoint reverse_onto (s acc : string) : string :=
  match s with
  | EmptyString => acc
  | String c s' => reverse_onto s' (String c acc)
  end.

Definition reverse (s : string) : string := reverse_onto s EmptyString.

(** [s.endswith(suffix)]. *)
Definition endswith (suffix s : string) : bool :=
  String.prefix (reverse suffix) (reverse s).

End Text.

(** The loop of [yaml_transformer] from line number [line_no] on: an empty
    line goes before every line but the first that does not start with a
    space. *)
Fixpoint transform_lines (line_no : nat) (lines : list string) : list string :=
  match lines with
  | [] => []
  | line :: lines' =>
      ((if (negb (line_no =? 0)%nat && negb (String.prefix " " line))%bool
        then [EmptyString] else [])
       ++ [line] ++ transform_lines (S line_no) lines')%list
  end.

Definition yaml_transformer (value : string) : string :=
  Py.join Text.newline (transform_lines 0 (Text.splitlines value))
  ++ Text.newline.

(** The guard that [patch_scripts] puts around a line: a test that the
    variable SHIPPABLE_BUILD_ID, in double quotes, is not empty. *)
Definition guard (line : string) : string :=
  "if [ " ++ Text.double_quote ++ "${SHIPPABLE_BUILD_ID:-}"
  ++ Text.double_quote ++ " ]; then " ++ line ++ "; fi".

(** [re.search(r'^trap cleanup', line)]. *)
Definition matches_trap_cleanup (line : string) : bool :=
  String.prefix "trap cleanup" line.

(** The search for [/check_matrix.py], optionally followed by a double
    quote, at the end of the line; the end of the pattern is the end of the
    line or the place before a final line feed. *)
Definition matches_check_matrix (line : string) : bool :=
  let script := "/check_matrix.py" in
  (Text.endswith script line
   || Text.endswith (script ++ Text.double_quote) line
   || Text.endswith (script ++ Text.newline) line
   || Text.endswith (script ++ Text.double_quote ++ Text.newline) line)%bool.

(** The variable [common] of [patch_scripts] and the four endings of the
    lines it compares with and puts in their place. *)
Definition common : string :=
  "for container in $(docker ps --format '{{.Image}} {{.ID}}' | grep -v ".

Definition drydock_only : string := "'^drydock/' | sed 's/^.* //'); do".

Definition drydock_and_pipelines : string :=
  "-e '^drydock/' -e '^quay.io/ansible/azure-pipelines-test-container:' | sed 's/^.* //'); do".

Definition drydock_and_shippable : string :=
  "-e '^drydock/' -e '^quay.io/ansible/shippable-build-container:' | sed 's/^.* //'); do".

Definition drydock_shippable_and_pipelines : string :=
  "-e '^drydock/' -e '^quay.io/ansible/shippable-build-container:' -e '^quay.io/ansible/azure-pipelines-test-container:' | sed 's/^.* //'); do".

(** The body of the loop of [patch_scripts] on one line. *)
Definition patch_line (line : string) : string :=
  let line := if matches_trap_cleanup line then guard line else line in
  let line := if matches_check_matrix line then guard line else line in
  let line :=
    if String.eqb line (common ++ drydock_only)
    then common ++ drydock_and_pipelines else line in
  let line :=
    if String.eqb line (common ++ drydock_and_shippable)
    then common ++ drydock_shippable_and_pipelines else line in
  line.

(** The script that [patch_scripts] rewrites, and the text it writes from
    the text it reads. *)
Definition shippable_sh_path (work_tree : string) (is_collection : bool)
  : string :=
  if is_collection
  then Py.path_join work_tree "tests/utils/shippable/shippable.sh"
  else Py.path_join work_tree "test/utils/shippable/shippable.sh".

Definition patch_script (text : string) : string :=
  Py.join Text.newline (map patch_line (Text.splitlines text))
  ++ Text.newline.

(** * Statements of the specification *)

(** A descriptor that the classifier returns for some entry, working tree
    and file system. *)
Definition classified (c : TestConfig) : Prop :=
  exists path_exists path is_collection matrix_item,
    classify_matrix_item path_exists path is_collection matrix_item = Ok c.

(** The branch fields of a descriptor hold recognised branches only. *)
Definition branches_recognised (c : TestConfig) : Prop :=
  match branch_prefix c with
  | Some b => In b ansible_branches
  | None => True
  end
  /\ match branch_kvp c with
     | Some (_, value) => In value ansible_branches
     | None => True
     end.

(** The stage labels of the table [test_types]. *)
Definition stage_labels : list string :=
  map (fun entry => fst (snd entry)) test_types.

(** [s] without a leading [pre], when it has one. *)
Definition strip_prefix (pre s : string) : string :=
  if String.prefix pre s then Py.drop (String.length pre) s else s.

(** The resolved branch of the display-stage-name rule: the branch prefix
    or else the value of the branch pair, without a leading [stable-]. *)
Definition resolved_branch (c : TestConfig) : option string :=
  match branch_prefix c, branch_kvp c with
  | Some b, _ => Some (strip_prefix "stable-" b)
  | None, Some (_, value) => Some (strip_prefix "stable-" value)
  | None, None => None
  end.

(** The display stage name as the composition rule words it. *)
Definition display_stage_name (c : TestConfig) : string :=
  let named :=
    match resolved_branch c with
    | Some b => stage_label c ++ " " ++ b
    | None => stage_label c
    end in
  if incidental c then
    if Py.mem (stage_label c) split_incidental then "Incidental " ++ named
    else "Incidental"
  else named.

(** The stage label that goes before the job label of an incidental test
    whose stage label is not among the split-incidental labels. *)
Definition stage_label_tokens (c : TestConfig) : list string :=
  if incidental c && negb (Py.mem (stage_label c) split_incidental)
  then [stage_label c] else [].

(** The display target name as the composition rule words it: the version
    is appended whenever the descriptor has one, [15 py3] standing for the
    version [15] of the [linux] job [openSUSE]. *)
Definition display_name_rule (c : TestConfig) : list string :=
  (stage_label_tokens c
   ++ [job_label c]
   ++ match version c with
      | Some v =>
          [if String.eqb (type c) "linux"
              && String.eqb (job_label c) "openSUSE" && String.eqb v "15"
           then "15 py3" else v]
      | None => []
      end)%list.

(** Whether a stage name is that of an incidental stage. *)
Definition incidental_name (stage_name : string) : bool :=
  String.prefix "Incidental" stage_name.

(** [totalJobs]: the sum over the stages of the number of targets times
    [max(1, number of groups)]. *)
Definition total_jobs (stages : dict Stage.t) : nat :=
  list_sum
    (map (fun s => length (Stage.targets s)
                   * Nat.max 1 (length (Stage.groups s)))
         (dict_values stages)).


(** A target stands for a config: its name and type are the joined name and
    test components of the config. *)
Definition target_of (c : TestConfig) (target : Target.t) : Prop :=
  Target.name target = Py.join " " (name_components c)
  /\ exists components,
       test_components c = Ok components
       /\ Target.type target = Py.join "/" components.

(** What the aggregation loop maintains of every stage: the test components
    of its configs are defined, and every target stands for one of its
    configs. *)
Record stage_ok (s : Stage.t) : Prop := mk_stage_ok {
  configs_ok :
    Forall (fun c => exists components, test_components c = Ok components)
      (Stage.configs s);
  targets_ok :
    Forall (fun entry => exists c, In c (Stage.configs s)
                                   /\ target_of c (snd entry))
      (Stage.targets s)
}.

Definition stages_ok (stages : dict Stage.t) : Prop :=
  Forall (fun entry => stage_ok (snd entry)) stages.

(** What it maintains of the stages of classified entries: a stage is stored
    under its name, and its flag can be read off its name. *)
Definition stage_flag_ok (entry : string * Stage.t) : Prop :=
  fst entry = Stage.name (snd entry)
  /\ Stage.incidental (snd entry) = incidental_name (Stage.name (snd entry)).

Definition flags_ok (stages : dict Stage.t) : Prop :=
  Forall stage_flag_ok stages.

(** ** Sample entries *)

Definition all_scripts (script_path : string) : bool := true.

Definition item_of (raw : string) : MatrixItem.t :=
  match parse_matrix_item raw with
  | Ok item => item
  | Err _ => MatrixItem.mk raw EmptyString [] []
  end.

Definition config_of (raw : string) : TestConfig :=
  match classify_matrix_item all_scripts "tree" true (item_of raw) with
  | Ok c => c
  | Err _ => mkTestConfig EmptyString EmptyString EmptyString None None None false None None
  end.

(** The stages of a classified matrix, and the first stage and target. *)
Definition stages_of (classified_matrix : list TestConfig) : dict Stage.t :=
  match aggregate classified_matrix with
  | Ok stages => stages
  | Err _ => []
  end.

Definition first_stage (classified_matrix : list TestConfig) : Stage.t :=
  match stages_of classified_matrix with
  | (_, stage) :: _ => stage
  | [] => Stage.new EmptyString false
  end.


Definition units_matrix : list TestConfig :=
  [config_of "T=units/2.7/1"; config_of "T=units/3.6/2"].

Definition sanity_matrix : list TestConfig := [config_of "T=sanity"].

Definition repeated_matrix : list TestConfig :=
  [config_of "T=sanity"; config_of "T=sanity"].

Definition aws_matrix : list TestConfig := [config_of "T=aws/2.7/10"].

(** ** Further notions *)

(** The exceptions that [classify_matrix_item] raises on purpose, and the
    out-of-range index of its path accesses. *)
Definition classification_error (e : error) : bool :=
  match e with
  | IndexError | UnrecognizedEnvKey _ | UnknownTestType _ _
  | UnhandledArity _ _ | UnexpectedParameters _ | UnknownDockerAlias _ _
  | ReconstructionMismatch _ _ | MissingScript _ _ => true
  | _ => false
  end.

(** The path of the companion script that [classify_matrix_item] looks
    for. *)
Definition script_path (path : string) (is_collection incidental : bool)
    (test_type : string) : string :=
  let script_directory :=
    if is_collection then Py.path_join path "tests/utils/shippable"
    else Py.path_join path "test/utils/shippable" in
  let script_directory :=
    if incidental then Py.path_join script_directory "incidental"
    else script_directory in
  Py.path_join script_directory (test_type ++ ".sh").

(** The segments that may precede the type token: a recognised branch, the
    incidental marker, or both in that order. *)
Definition leading_segments (branch : option string) (incidental : bool)
  : list string :=
  (match branch with Some b => [b] | None => [] end
   ++ if incidental then ["i"] else [])%list.

(** The distinct members of a list in the order of their first
    occurrence. *)
Definition first_seen (keys : list string) : list string :=
  fold_left (fun seen k => set_add k seen) keys [].

(** The group of a config when it has one that counts, and its target
    name. *)
Definition groups_of (configs : list TestConfig) : list string :=
  flat_map (fun c => match group c with
                     | Some g => if Py.truthy g then [g] else []
                     | None => []
                     end) configs.

Definition target_name_of (c : TestConfig) : string :=
  Py.join " " (name_components c).

(** What the aggregation loop has made of the configs [done] it has folded:
    the stage stored under a name holds, in their order, the configs of
    that stage name, which agree with its flag; its groups are their groups
    (the list that stands for the set holds them in the order of first
    occurrence, an order the set itself does not have); its targets are
    stored under their
    display names, in the order of first occurrence, each with the joined
    test components of the configs of that name. *)
Record stage_inv (done : list TestConfig) (k : string) (s : Stage.t)
  : Prop := mk_stage_inv {
  inv_name : Stage.name s = k;
  inv_configs :
    Stage.configs s = filter (fun c => String.eqb (stage_name c) k) done;
  inv_flag :
    Forall (fun c => incidental c = Stage.incidental s) (Stage.configs s);
  inv_groups : Stage.groups s = first_seen (groups_of (Stage.configs s));
  inv_target_keys :
    map fst (Stage.targets s)
    = first_seen (map target_name_of (Stage.configs s));
  inv_targets :
    Forall (fun c =>
              exists components,
                test_components c = Ok components
                /\ dict_get (target_name_of c) (Stage.targets s)
                   = Some (Target.mk (target_name_of c)
                             (Py.join "/" components)))
      (Stage.configs s)
}.

Definition stages_inv (done : list TestConfig) (stages : dict Stage.t)
  : Prop :=
  map fst stages = first_seen (map stage_name done)
  /\ Forall (fun entry => stage_inv done (fst entry) (snd entry)) stages.

(** A string with every [a] turned into [b]. *)
Fixpoint subst_char (a b : ascii) (s : string) : string :=
  match s with
  | EmptyString => EmptyString
  | String c s' => String (if Ascii.eqb c a then b else c) (subst_char a b s')
  end.

(** The identifier that [generate_stages] gives the stage of a name, and
    the stages it returns for a matrix. *)
Definition identifier_of (name : string) : string :=
  Py.replace "." "_" (Py.replace " " "_" name).

Definition content_of (classified_matrix : list TestConfig)
  : list ContentStage :=
  match snd (generate_stages classified_matrix) with
  | Ok content => content
  | Err _ => []
  end.

(** * Properties *)

(** Splits conjunctions, and nothing else. *)
Ltac conj_split := repeat match goal with |- _ /\ _ => split end.

(** ** Strings and joins *)

Lemma append_assoc (a b c : string) : (a ++ b) ++ c = a ++ b ++ c.
Proof. induction a as [|x a IH]; simpl; [reflexivity | now rewrite IH]. Qed.

Lemma append_empty_r (a : string) : a ++ EmptyString = a.
Proof. induction a as [|x a IH]; simpl; [reflexivity | now rewrite IH]. Qed.




Lemma join_cons (sep x : string) (l : list string) :
  l <> [] -> Py.join sep (x :: l) = x ++ sep ++ Py.join sep l.
Proof. destruct l; [congruence | reflexivity]. Qed.




(** ** Dictionaries *)

Lemma dict_get_In {V : Type} (k : string) (v : V) (d : dict V) :
  dict_get k d = Some v -> In (k, v) d.
Proof.
  induction d as [|[k' v'] d IH]; simpl; [discriminate|].
  destruct (String.eqb_spec k k') as [->|_].
  - intros [= ->]. now left.
  - intros H. right. now apply IH.
Qed.

Lemma dict_get_set_same {V : Type} (k : string) (v : V) (d : dict V) :
  dict_get k (dict_set k v d) = Some v.
Proof.
  induction d as [|[k' v'] d IH]; simpl.
  - now rewrite String.eqb_refl.
  - destruct (String.eqb_spec k k') as [->|Hn]; simpl.
    + now rewrite String.eqb_refl.
    + destruct (String.eqb_spec k k'); [contradiction | exact IH].
Qed.

Lemma dict_get_set_other {V : Type} (k k' : string) (v : V) (d : dict V) :
  k <> k' -> dict_get k (dict_set k' v d) = dict_get k d.
Proof.
  intros Hn. induction d as [|[k0 v0] d IH]; simpl.
  - destruct (String.eqb_spec k k'); [contradiction | reflexivity].
  - destruct (String.eqb_spec k' k0) as [->|Hn0]; simpl.
    + destruct (String.eqb_spec k k0); [contradiction | reflexivity].
    + destruct (String.eqb_spec k k0); [reflexivity | exact IH].
Qed.

Lemma Forall_dict_set {V : Type} (P : string * V -> Prop) (k : string) (v : V)
    (d : dict V) :
  Forall P d -> P (k, v) -> Forall P (dict_set k v d).
Proof.
  intros Hd Hv. induction Hd as [|[k' v'] d Hx Hd IH]; simpl.
  - now constructor.
  - destruct (String.eqb k k'); constructor; assumption.
Qed.

Lemma In_dict_set {V : Type} (k : string) (v : V) (d : dict V) (x : string * V) :
  In x (dict_set k v d) -> x = (k, v) \/ In x d.
Proof.
  induction d as [|[k' v'] d IH]; simpl.
  - intros [<-|[]]. now left.
  - destruct (String.eqb k k'); simpl.
    + intros [<-|H]; [now left | right; now right].
    + intros [<-|H]; [right; now left|].
      destruct (IH H) as [->|H']; [now left | right; now right].
Qed.

(** ** The classifier *)

Lemma mem_In (x : string) (l : list string) : Py.mem x l = true -> In x l.
Proof.
  unfold Py.mem. rewrite existsb_exists. intros [y [Hy He]].
  apply String.eqb_eq in He. now subst.
Qed.

Lemma get_test_config_inv test_type parts inc bp bk c :
  get_test_config test_type parts inc bp bk = Ok c ->
  type c = test_type /\ incidental c = inc
  /\ branch_prefix c = bp /\ branch_kvp c = bk
  /\ (exists job, dict_get test_type test_types = Some (stage_label c, job))
  /\ (test_type = "linux" ->
      exists p v, platform c = Some p /\ version c = Some v).
Proof.
  unfold get_test_config.
  destruct (dict_get test_type test_types) as [[sl jl]|]; [|discriminate].
  destruct (decode_parts test_type jl parts) as [[[pl v] g]|]; cbn [bind];
    [|discriminate].
  destruct (String.eqb_spec test_type "linux") as [->|Hn].
  - destruct (Py.truthy_opt pl || negb (Py.truthy_opt v)); [discriminate|].
    destruct v as [alias|]; [|discriminate].
    destruct (dict_get alias docker_types) as [[dn dv]|]; [|discriminate].
    intros [= <-]. simpl. repeat split; eauto.
  - intros [= <-]. simpl. repeat split; eauto. intros; contradiction.
Qed.

Lemma resolve_branch_inv parts values bp bk parts' values' :
  resolve_branch parts values = Ok (bp, bk, parts', values') ->
  match bp with Some b => In b ansible_branches | None => True end
  /\ match bk with Some (_, v) => In v ansible_branches | None => True end.
Proof.
  unfold resolve_branch.
  destruct (first parts) as [p0|]; cbn [bind]; [|discriminate].
  destruct (Py.mem p0 ansible_branches) eqn:Hm.
  - intros [= <- <- _ _]. split; [now apply mem_In | exact I].
  - destruct (find_branch values) as [[k v]|] eqn:Hf.
    + intros [= <- <- _ _]. split; [exact I|].
      apply find_some in Hf. apply mem_In. exact (proj2 Hf).
    + intros [= <- <- _ _]. split; exact I.
Qed.

Lemma decode_path_inv bp bk parts c test_type :
  decode_path bp bk parts = Ok (c, test_type) ->
  exists inc rest,
    get_test_config test_type rest inc bp bk = Ok c.
Proof.
  unfold decode_path.
  destruct (first parts) as [p0|]; cbn [bind]; [|discriminate].
  destruct (String.eqb p0 "i").
  - destruct (first (tl parts)) as [ty|]; cbn [bind]; [|discriminate].
    destruct (get_test_config ty (tl (tl parts)) true bp bk) as [c'|] eqn:Hg;
      cbn [bind]; [|discriminate].
    intros [= <- <-]. eauto.
  - destruct (first parts) as [ty|]; cbn [bind]; [|discriminate].
    destruct (get_test_config ty (tl parts) false bp bk) as [c'|] eqn:Hg;
      cbn [bind]; [|discriminate].
    intros [= <- <-]. eauto.
Qed.

Lemma decode_matrix_item_inv item c test_type :
  decode_matrix_item item = Ok (c, test_type) ->
  type c = test_type
  /\ branches_recognised c
  /\ (exists job, dict_get test_type test_types = Some (stage_label c, job))
  /\ (test_type = "linux" ->
      exists p v, platform c = Some p /\ version c = Some v).
Proof.
  unfold decode_matrix_item.
  destruct (resolve_branch (MatrixItem.parts item) (MatrixItem.values item))
    as [[[[bp bk] parts] values]|] eqn:Hr; cbn [bind]; [|discriminate].
  destruct values; [|discriminate].
  intros Hd. destruct (decode_path_inv _ _ _ _ _ Hd) as (inc & rest & Hg).
  destruct (get_test_config_inv _ _ _ _ _ _ Hg)
    as (Ht & _ & Hp & Hk & Hl & Hx).
  destruct (resolve_branch_inv _ _ _ _ _ _ Hr) as [Hbp Hbk].
  unfold branches_recognised. rewrite Hp, Hk. auto.
Qed.

(** The reconstruction is defined for every descriptor the decoding steps
    produce. *)
Lemma decode_matrix_item_test item c test_type :
  decode_matrix_item item = Ok (c, test_type) -> exists t, test c = Ok t.
Proof.
  intros H. destruct (decode_matrix_item_inv _ _ _ H) as (Ht & _ & _ & Hl).
  unfold test, test_components. rewrite Ht.
  destruct (String.eqb_spec test_type "linux") as [He|Hn].
  - destruct (Hl He) as (p & v & -> & ->). simpl. eauto.
  - simpl. eauto.
Qed.

Lemma classify_decode pe path ic item c :
  classify_matrix_item pe path ic item = Ok c ->
  exists test_type, decode_matrix_item item = Ok (c, test_type).
Proof.
  unfold classify_matrix_item.
  destruct (decode_matrix_item item) as [[c' ty]|]; simpl; [|discriminate].
  destruct (test c') as [t|]; simpl; [|discriminate].
  destruct (negb (MatrixItem.test item =? t)); [discriminate|].
  match goal with |- context [negb ?b] => destruct (negb b) end;
    [discriminate|].
  intros [= <-]. eauto.
Qed.

(** C1.  Round trip: a descriptor that [classify_matrix_item] returns
    reconstructs, through its property [test], the original path string of
    the entry; the reconstruction is defined for every descriptor the
    decoding steps reach, and whenever it differs from the original path
    the classifier raises the reconstruction mismatch. *)
Theorem classify_round_trip pe path ic item :
  (forall c, classify_matrix_item pe path ic item = Ok c ->
             test c = Ok (MatrixItem.test item))
  /\ (forall c test_type, decode_matrix_item item = Ok (c, test_type) ->
        exists t, test c = Ok t
          /\ (t <> MatrixItem.test item ->
              classify_matrix_item pe path ic item
              = Err (ReconstructionMismatch t (MatrixItem.test item)))).
Proof.
  split.
  - intros c. unfold classify_matrix_item.
    destruct (decode_matrix_item item) as [[c' ty]|]; cbn [bind];
      [|discriminate].
    destruct (test c') as [t|] eqn:Ht; cbn [bind]; [|discriminate].
    destruct (String.eqb_spec (MatrixItem.test item) t) as [He|];
      cbn [negb]; [|discriminate].
    match goal with |- context [negb ?b] => destruct (negb b) end;
      [discriminate|].
    intros [= <-]. now rewrite He.
  - intros c ty Hd. destruct (decode_matrix_item_test _ _ _ Hd) as [t Ht].
    exists t. split; [exact Ht|]. intros Hne.
    unfold classify_matrix_item. rewrite Hd. simpl. rewrite Ht. simpl.
    destruct (String.eqb_spec (MatrixItem.test item) t) as [He|_];
      [now subst | reflexivity].
Qed.

Lemma classify_round_trip_witness :
  test (config_of "T=linux/opensuse15py2/1") = Ok "linux/opensuse15py2/1"
  /\ classify_matrix_item all_scripts "tree" true (item_of "T=units/2.7/")
     = Err (ReconstructionMismatch "units/2.7" "units/2.7/").
Proof.
  split.
  - apply (proj1 (classify_round_trip all_scripts "tree" true
                    (item_of "T=linux/opensuse15py2/1"))).
    reflexivity.
  - destruct (proj2 (classify_round_trip all_scripts "tree" true
                       (item_of "T=units/2.7/"))
                (mkTestConfig "Units" "Python" "units" None (Some "2.7")
                   (Some EmptyString) false None None)
                "units" eq_refl) as [t [Ht Hm]].
    injection Ht as <-. apply Hm. discriminate.
Defined.

(** C6.  Arity-dependent decoding, for a type token of the table: one
    remaining segment is the version when the job label is not [Python] or
    the segment contains a period, and the group otherwise; two segments
    are version and group; three are platform, version and group; more than
    three make [get_test_config] fail.  For every type but [linux] (whose
    version is then resolved as a docker alias) the descriptor carries the
    decoded fields as they are. *)
Theorem arity_decode test_type stage job inc bp bk :
  dict_get test_type test_types = Some (stage, job) ->
  (forall p,
     decode_parts test_type job [p]
     = Ok (if String.eqb job "Python"
           then if Py.contains "." p then (None, Some p, None)
                else (None, None, Some p)
           else (None, Some p, None)))
  /\ (forall v g,
        decode_parts test_type job [v; g] = Ok (None, Some v, Some g))
  /\ (forall pl v g,
        decode_parts test_type job [pl; v; g] = Ok (Some pl, Some v, Some g))
  /\ (forall parts, 3 < length parts ->
        get_test_config test_type parts inc bp bk
        = Err (UnhandledArity test_type parts))
  /\ (test_type <> "linux" ->
      forall parts pl v g,
        decode_parts test_type job parts = Ok (pl, v, g) ->
        get_test_config test_type parts inc bp bk
        = Ok (mkTestConfig stage job test_type pl v g inc bp bk)).
Proof.
  intros Ht. split; [|split; [|split; [|split]]].
  - intros p. simpl. destruct (String.eqb job "Python"); [|reflexivity].
    destruct (Py.contains "." p); reflexivity.
  - reflexivity.
  - reflexivity.
  - intros parts Hlen. unfold get_test_config. rewrite Ht.
    destruct parts as [|a [|b [|c [|d parts]]]]; simpl in Hlen; try lia.
    reflexivity.
  - intros Hn parts pl v g Hd. unfold get_test_config. rewrite Ht, Hd.
    cbn [bind]. destruct (String.eqb_spec test_type "linux");
      [contradiction | reflexivity].
Qed.

Lemma arity_decode_witness :
  get_test_config "units" ["3.6"] false None None
  = Ok (mkTestConfig "Units" "Python" "units" None (Some "3.6") None
          false None None)
  /\ get_test_config "units" ["1"] false None None
     = Ok (mkTestConfig "Units" "Python" "units" None None (Some "1")
             false None None)
  /\ get_test_config "windows" ["2016"] false None None
     = Ok (mkTestConfig "Windows" "Server" "windows" None (Some "2016") None
             false None None)
  /\ get_test_config "units" ["a"; "b"; "c"; "d"] false None None
     = Err (UnhandledArity "units" ["a"; "b"; "c"; "d"]).
Proof.
  pose proof (arity_decode "units" "Units" "Python" false None None eq_refl)
    as (H1 & _ & _ & H4 & H5).
  pose proof (arity_decode "windows" "Windows" "Server" false None None
                eq_refl) as (W1 & _ & _ & _ & W5).
  conj_split.
  - apply H5; [discriminate | exact (H1 "3.6")].
  - apply H5; [discriminate | exact (H1 "1")].
  - apply W5; [discriminate | exact (W1 "2016")].
  - apply H4. simpl. lia.
Defined.

(** ** Display names *)

Lemma recognised_branch b :
  In b ansible_branches ->
  Py.truthy b = true
  /\ Py.replace "stable-" EmptyString b = strip_prefix "stable-" b
  /\ Py.truthy (strip_prefix "stable-" b) = true.
Proof.
  unfold ansible_branches.
  intros [<-|[<-|[<-|[<-|[<-|[]]]]]]; repeat split.
Qed.

Lemma classified_inv c :
  classified c ->
  branches_recognised c
  /\ (exists job, dict_get (type c) test_types = Some (stage_label c, job)).
Proof.
  intros (pe & path & ic & item & H).
  destruct (classify_decode _ _ _ _ _ H) as [ty Hd].
  destruct (decode_matrix_item_inv _ _ _ Hd) as (Ht & Hb & Hl & _).
  rewrite Ht. auto.
Qed.

(** C7.  The stage name of a classified test is the stage label, followed
    after a space by the resolved branch (the branch prefix or else the
    value of the branch pair, without a leading [stable-]) when there is
    one; for an incidental test that name is prefixed with [Incidental ]
    when the stage label is among the split-incidental labels and replaced
    by [Incidental] otherwise. *)
Theorem stage_name_rule c :
  classified c -> stage_name c = display_stage_name c.
Proof.
  intros Hc. destruct (classified_inv c Hc) as [[Hp Hk] _].
  unfold stage_name, display_stage_name, branch_name, resolved_branch.
  destruct (branch_prefix c) as [b|].
  - destruct (recognised_branch b Hp) as (Ht & Hr & Hs).
    cbn [Py.truthy_opt option_map]. rewrite Ht. cbn [Py.truthy_opt option_map].
    rewrite Ht, Hr, Hs. reflexivity.
  - cbn [Py.truthy_opt]. destruct (branch_kvp c) as [[k v]|]; [|reflexivity].
    destruct (recognised_branch v Hk) as (Ht & Hr & Hs).
    cbn [Py.truthy_opt option_map]. rewrite Ht. cbn [option_map].
    rewrite Hr, Hs. reflexivity.
Qed.

Lemma stage_name_rule_witness :
  stage_name (config_of "T=devel/sanity") = "Sanity devel"
  /\ stage_name (config_of "T=aws/2.7/1 A_REV=stable-2.10") = "AWS 2.10"
  /\ stage_name (config_of "T=i/linux/centos7") = "Incidental Docker"
  /\ stage_name (config_of "T=i/aws/2.7/1") = "Incidental".
Proof.
  assert (H : forall raw c,
             classify_matrix_item all_scripts "tree" true (item_of raw) = Ok c ->
             stage_name c = display_stage_name c).
  { intros raw c Hc. apply stage_name_rule. red. eauto. }
  conj_split.
  - exact (H "T=devel/sanity" _ eq_refl).
  - exact (H "T=aws/2.7/1 A_REV=stable-2.10" _ eq_refl).
  - exact (H "T=i/linux/centos7" _ eq_refl).
  - exact (H "T=i/aws/2.7/1" _ eq_refl).
Defined.

(** C8, as the code composes the name.  The display name of a test is made
    of the job label, preceded by the stage label exactly when the test is
    incidental and its stage label is not among the split-incidental
    labels, and followed by the version when one is set and is not the
    empty string, where [15 py3] stands for the version [15] of the [linux]
    job [openSUSE]; a version that is the empty string is left out. *)
Theorem name_components_rule c :
  (version c <> Some EmptyString -> name_components c = display_name_rule c)
  /\ (version c = Some EmptyString ->
      name_components c = (stage_label_tokens c ++ [job_label c])%list).
Proof.
  unfold name_components, display_name_rule, stage_label_tokens. split.
  - intros Hv.
    destruct (incidental c && negb (Py.mem (stage_label c) split_incidental));
      destruct (version c) as [[|a v]|]; try reflexivity; try congruence;
      cbn [Py.truthy];
      destruct (String.eqb (type c) "linux"
                && String.eqb (job_label c) "openSUSE"
                && String.eqb (String a v) "15"); reflexivity.
  - intros ->.
    destruct (incidental c && negb (Py.mem (stage_label c) split_incidental));
      reflexivity.
Qed.

Lemma name_components_rule_witness :
  name_components (config_of "T=i/linux/opensuse15") = ["openSUSE"; "15 py3"]
  /\ name_components (config_of "T=i/aws/2.7/1") = ["AWS"; "Python"; "2.7"]
  /\ name_components (config_of "T=units//1") = ["Python"].
Proof.
  conj_split.
  - apply (proj1 (name_components_rule (config_of "T=i/linux/opensuse15"))).
    discriminate.
  - apply (proj1 (name_components_rule (config_of "T=i/aws/2.7/1"))).
    discriminate.
  - apply (proj2 (name_components_rule (config_of "T=units//1"))).
    reflexivity.
Defined.

(** C8 as stated fails on the entry [T=units//1], which the classifier
    accepts: its version is set, to the empty string, and the display name
    is the job label alone, without the version that the rule appends. *)
Lemma name_components_counterexample :
  classify_matrix_item all_scripts "tree" true (item_of "T=units//1")
  = Ok (mkTestConfig "Units" "Python" "units" None (Some EmptyString)
          (Some "1") false None None)
  /\ version (config_of "T=units//1") = Some EmptyString
  /\ name_components (config_of "T=units//1") = ["Python"]
  /\ display_name_rule (config_of "T=units//1") = ["Python"; EmptyString]
  /\ name_components (config_of "T=units//1")
     <> display_name_rule (config_of "T=units//1").
Proof. conj_split; try reflexivity. vm_compute. discriminate. Qed.

Lemma In_mem (x : string) (l : list string) : In x l -> Py.mem x l = true.
Proof.
  intros H. unfold Py.mem. apply existsb_exists.
  exists x. split; [exact H | apply String.eqb_refl].
Qed.

Lemma decode_path_marker_only bp bk :
  decode_path bp bk [] = Err IndexError
  /\ decode_path bp bk ["i"] = Err IndexError.
Proof. split; reflexivity. Qed.

(** C10.  An entry whose path is a recognised branch alone, the incidental
    marker alone, or a branch followed by the marker alone, is never
    classified.  When it carries no further pair the classifier indexes an
    empty sequence and raises [IndexError], which is none of the
    classification failures; in general it raises [IndexError] unless pairs
    are left over after branch resolution, which are reported first. *)
Theorem classify_index_error pe path ic item b :
  In b ansible_branches ->
  MatrixItem.parts item = [b] \/ MatrixItem.parts item = ["i"]
  \/ MatrixItem.parts item = [b; "i"] ->
  (MatrixItem.values item = [] ->
   classify_matrix_item pe path ic item = Err IndexError)
  /\ (classify_matrix_item pe path ic item = Err IndexError
      \/ exists leftover,
           leftover <> []
           /\ classify_matrix_item pe path ic item
              = Err (UnrecognizedEnvKey leftover)).
Proof.
  intros Hb Hp.
  assert (Hleft : forall bp bk parts leftover,
            parts = [] \/ parts = ["i"] ->
            (leftover = [] ->
             match leftover with
             | _ :: _ => Err (UnrecognizedEnvKey leftover)
             | [] => decode_path bp bk parts
             end = Err IndexError)
            /\ (match leftover with
                | _ :: _ => Err (UnrecognizedEnvKey leftover)
                | [] => decode_path bp bk parts
                end = Err IndexError
                \/ exists l, l <> []
                     /\ match leftover with
                        | _ :: _ => Err (UnrecognizedEnvKey leftover)
                        | [] => decode_path bp bk parts
                        end = Err (UnrecognizedEnvKey l))).
  { intros bp bk parts leftover Hparts.
    assert (Hd : decode_path bp bk parts = Err IndexError)
      by (destruct Hparts as [-> | ->]; apply decode_path_marker_only).
    destruct leftover as [|kv leftover].
    - split; [intros _; exact Hd | left; exact Hd].
    - split; [discriminate|]. right. exists (kv :: leftover).
      split; [discriminate | reflexivity]. }
  assert (Hdec : (MatrixItem.values item = [] ->
                  decode_matrix_item item = Err IndexError)
                 /\ (decode_matrix_item item = Err IndexError
                     \/ exists l, l <> []
                          /\ decode_matrix_item item
                             = Err (UnrecognizedEnvKey l))).
  { unfold decode_matrix_item, resolve_branch.
    destruct Hp as [-> | [-> | ->]]; cbn [first bind tl].
    - rewrite (In_mem _ _ Hb).
      destruct (Hleft (Some b) None [] (MatrixItem.values item)
                  (or_introl eq_refl)) as [H1 H2].
      split; [exact H1 | exact H2].
    - change (Py.mem "i" ansible_branches) with false. cbv iota.
      destruct (find_branch (MatrixItem.values item)) as [[k v]|] eqn:Hf.
      + destruct (Hleft None (Some (k, v)) ["i"]
                    (dict_remove k (MatrixItem.values item))
                    (or_intror eq_refl)) as [H1 H2].
        split; [|exact H2].
        intros Hv. rewrite Hv in Hf. discriminate.
      + destruct (Hleft None None ["i"] (MatrixItem.values item)
                    (or_intror eq_refl)) as [H1 H2].
        split; [exact H1 | exact H2].
    - rewrite (In_mem _ _ Hb).
      destruct (Hleft (Some b) None ["i"] (MatrixItem.values item)
                  (or_intror eq_refl)) as [H1 H2].
      split; [exact H1 | exact H2]. }
  destruct Hdec as [H1 H2]. unfold classify_matrix_item. split.
  - intros Hv. now rewrite (H1 Hv).
  - destruct H2 as [-> | (l & Hl & ->)]; [now left|].
    right. exists l. split; [exact Hl | reflexivity].
Qed.

Lemma classify_index_error_witness :
  classify_matrix_item all_scripts "tree" true (item_of "T=devel")
  = Err IndexError
  /\ classify_matrix_item all_scripts "tree" true (item_of "T=i")
     = Err IndexError
  /\ classify_matrix_item all_scripts "tree" true (item_of "T=stable-2.9/i")
     = Err IndexError.
Proof.
  conj_split.
  - apply (classify_index_error all_scripts "tree" true (item_of "T=devel")
             "devel");
      [simpl; auto | left; reflexivity | reflexivity].
  - apply (classify_index_error all_scripts "tree" true (item_of "T=i")
             "devel");
      [simpl; auto | right; left; reflexivity | reflexivity].
  - apply (classify_index_error all_scripts "tree" true
             (item_of "T=stable-2.9/i") "stable-2.9");
      [simpl; auto | right; right; reflexivity | reflexivity].
Defined.

(** ** The decoder *)

Lemma split_nonempty (c : ascii) (s : string) : Py.split c s <> [].
Proof.
  destruct s as [|a s]; simpl; [discriminate|].
  destruct (Ascii.eqb a c); [discriminate|].
  destruct (Py.split c s); discriminate.
Qed.

Lemma split_join (c : ascii) (s : string) :
  Py.join (String c EmptyString) (Py.split c s) = s.
Proof.
  induction s as [|a s IH]; [reflexivity|].
  simpl. destruct (Ascii.eqb_spec a c) as [->|Hn].
  - rewrite join_cons by apply split_nonempty. simpl. now rewrite IH.
  - pose proof (split_nonempty c s) as Hs.
    destruct (Py.split c s) as [|p ps]; [contradiction|].
    destruct ps as [|q ps]; simpl in *; now rewrite <- IH.
Qed.

Lemma split_pieces (c : ascii) (s : string) :
  Forall (fun piece => Py.contains c piece = false) (Py.split c s).
Proof.
  induction s as [|a s IH]; simpl; [repeat constructor|].
  destruct (Ascii.eqb a c) eqn:He; [constructor; [reflexivity | exact IH]|].
  destruct (Py.split c s) as [|p ps]; [repeat constructor; simpl; now rewrite He|].
  inversion IH as [|? ? Hp Hps]; subst.
  constructor; [simpl; now rewrite He, Hp | exact Hps].
Qed.

Lemma split_no_sep (c : ascii) (s : string) :
  Py.contains c s = false -> Py.split c s = [s].
Proof.
  induction s as [|a s IH]; simpl; [reflexivity|].
  intros H. apply orb_false_iff in H as [Ha Hs].
  rewrite Ha, (IH Hs). reflexivity.
Qed.

Lemma split_app (c : ascii) (k v : string) :
  Py.contains c k = false ->
  Py.split c (k ++ String c v) = k :: Py.split c v.
Proof.
  induction k as [|a k IH]; simpl.
  - intros _. now rewrite Ascii.eqb_refl.
  - intros H. apply orb_false_iff in H as [Ha Hk].
    rewrite Ha, (IH Hk). reflexivity.
Qed.

Lemma dict_item_spec kvp k v :
  dict_item kvp = Ok (k, v)
  <-> kvp = k ++ "=" ++ v
      /\ Py.contains "="%char k = false /\ Py.contains "="%char v = false.
Proof.
  unfold dict_item. split.
  - intros H.
    pose proof (split_join "="%char kvp) as Hj.
    pose proof (split_pieces "="%char kvp) as Hp.
    destruct (Py.split "="%char kvp) as [|a [|b [|x l]]]; try discriminate.
    injection H as <- <-.
    apply Forall_cons_iff in Hp as [Ha Hp].
    apply Forall_cons_iff in Hp as [Hb _].
    split; [symmetry; exact Hj | split; assumption].
  - intros (-> & Hk & Hv).
    change (k ++ "=" ++ v) with (k ++ String "="%char v).
    now rewrite (split_app _ _ _ Hk), (split_no_sep _ _ Hv).
Qed.

Lemma dict_item_error kvp e : dict_item kvp = Err e -> e = ValueError.
Proof.
  unfold dict_item.
  destruct (Py.split "="%char kvp) as [|a [|b [|x l]]]; congruence.
Qed.

Lemma mapM_dict_item_error l e : mapM dict_item l = Err e -> e = ValueError.
Proof.
  induction l as [|kvp l IH]; simpl; [discriminate|].
  destruct (dict_item kvp) as [[k v]|e'] eqn:Hi; cbn [bind].
  - destruct (mapM dict_item l) as [ps|e'']; cbn [bind];
      [discriminate | intros [= <-]; now apply IH].
  - intros [= <-]. now apply dict_item_error in Hi.
Qed.

Lemma mapM_dict_item_fails l kvp :
  In kvp l -> (forall k v, dict_item kvp <> Ok (k, v)) ->
  mapM dict_item l = Err ValueError.
Proof.
  intros Hin Hbad.
  destruct (mapM dict_item l) as [ps|e] eqn:Hm;
    [|now rewrite (mapM_dict_item_error _ _ Hm)].
  exfalso. revert ps Hm. induction l as [|x l IH]; [destruct Hin|].
  simpl. intros ps. destruct (dict_item x) as [[k v]|] eqn:Hx; cbn [bind];
    [|discriminate].
  destruct (mapM dict_item l) as [ps'|]; cbn [bind]; [|discriminate].
  intros _. destruct Hin as [->|Hin]; [exact (Hbad k v Hx) | eauto].
Qed.

Lemma find_app {A : Type} (f : A -> bool) (l1 l2 : list A) :
  find f (l1 ++ l2)
  = match find f l1 with Some x => Some x | None => find f l2 end.
Proof.
  induction l1 as [|a l1 IH]; simpl; [reflexivity|].
  destruct (f a); [reflexivity | exact IH].
Qed.

Lemma dict_get_set {V : Type} (k k' : string) (v : V) (d : dict V) :
  dict_get k (dict_set k' v d)
  = if String.eqb k k' then Some v else dict_get k d.
Proof.
  destruct (String.eqb_spec k k') as [->|Hn].
  - apply dict_get_set_same.
  - now apply dict_get_set_other.
Qed.

(** In a dictionary built from pairs, a key holds the value of the last
    pair that carries it. *)
Lemma dict_of_pairs_last {V : Type} (pairs : list (string * V)) (k : string) :
  dict_get k (dict_of_pairs pairs)
  = option_map snd (find (fun kv => String.eqb k (fst kv)) (rev pairs)).
Proof.
  unfold dict_of_pairs.
  assert (H : forall d,
    dict_get k (fold_left (fun d kv => dict_set (fst kv) (snd kv) d) pairs d)
    = match find (fun kv => String.eqb k (fst kv)) (rev pairs) with
      | Some kv => Some (snd kv)
      | None => dict_get k d
      end).
  { induction pairs as [|[k' v'] pairs IH]; intros d; [reflexivity|].
    simpl. rewrite IH, find_app. 
    destruct (find (fun kv => String.eqb k (fst kv)) (rev pairs));
      [reflexivity|].
    simpl. rewrite dict_get_set. now destruct (String.eqb k k'). }
  rewrite H. now destruct (find _ (rev pairs)).
Qed.

(** C5, as the decoder does it.  A raw entry is split at every space and
    each token at every [=]; a token is accepted exactly when it is a key
    and a value around one [=], and a token with no [=] or more than one
    makes decoding fail with [ValueError].  When every token is accepted
    the pairs fill the mapping from left to right, so that a key carried by
    several tokens keeps the value of the last of them and no error is
    raised for it; the path is then popped from the key [T]. *)
Theorem parse_matrix_item_decoding raw :
  (forall kvp k v,
     dict_item kvp = Ok (k, v)
     <-> kvp = k ++ "=" ++ v
         /\ Py.contains "="%char k = false /\ Py.contains "="%char v = false)
  /\ (forall kvp,
        In kvp (Py.split " "%char raw) ->
        (forall k v, dict_item kvp <> Ok (k, v)) ->
        parse_matrix_item raw = Err ValueError)
  /\ (forall pairs,
        mapM dict_item (Py.split " "%char raw) = Ok pairs ->
        (forall k,
           dict_get k (dict_of_pairs pairs)
           = option_map snd
               (find (fun kv => String.eqb k (fst kv)) (rev pairs)))
        /\ parse_matrix_item raw
           = ('(test, values) <- dict_pop "T" (dict_of_pairs pairs) ;;
              Ok (MatrixItem.mk raw test values (Py.split "/"%char test)))).
Proof.
  split; [exact dict_item_spec | split].
  - intros kvp Hin Hbad. unfold parse_matrix_item.
    now rewrite (mapM_dict_item_fails _ _ Hin Hbad).
  - intros pairs Hm. split; [apply dict_of_pairs_last|].
    unfold parse_matrix_item. now rewrite Hm.
Qed.

Lemma parse_matrix_item_decoding_witness :
  parse_matrix_item "T=a=b" = Err ValueError
  /\ dict_get "T" (dict_of_pairs [("T", "sanity"); ("T", "units")])
     = Some "units"
  /\ parse_matrix_item "T=sanity T=units"
     = Ok (MatrixItem.mk "T=sanity T=units" "units" [] ["units"]).
Proof.
  destruct (parse_matrix_item_decoding "T=a=b") as (_ & Hbad & _).
  destruct (parse_matrix_item_decoding "T=sanity T=units") as (_ & _ & Hok).
  destruct (Hok [("T", "sanity"); ("T", "units")] eq_refl) as [Hlast Hparse].
  conj_split.
  - apply (Hbad "T=a=b"); [simpl; auto | intros k v; discriminate].
  - exact (Hlast "T").
  - exact Hparse.
Defined.

(** C5 as stated fails: an entry with two tokens for the key [T] is decoded
    without error, the later token winning, and a token with a second [=]
    is refused instead of mapping its key to the remainder [a=b]. *)
Lemma parse_matrix_item_counterexample :
  parse_matrix_item "T=sanity T=units"
  = Ok (MatrixItem.mk "T=sanity T=units" "units" [] ["units"])
  /\ parse_matrix_item "T=a=b" = Err ValueError
  /\ parse_matrix_item "T=a=b"
     <> Ok (MatrixItem.mk "T=a=b" "a=b" [] ["a=b"]).
Proof. conj_split; [reflexivity | reflexivity | discriminate]. Qed.

(** ** The aggregator *)

Lemma setdefault_cases {V : Type} (k : string) (default : V) (d : dict V) :
  (dict_get k d = None /\ setdefault k default d = default)
  \/ (exists v, dict_get k d = Some v /\ setdefault k default d = v).
Proof.
  unfold setdefault. destruct (dict_get k d) as [v|]; [right | left]; eauto.
Qed.

Lemma test_components_nonempty c components :
  test_components c = Ok components -> components <> [].
Proof.
  unfold test_components.
  destruct (String.eqb (type c) "linux").
  - destruct (version c) as [v|]; [|discriminate].
    destruct (platform c) as [p|]; [|discriminate].
    cbn [bind]. intros [= <-].
    destruct (incidental c); destruct (branch_prefix c) as [b|];
      try destruct (Py.truthy b); discriminate.
  - cbn [bind]. intros [= <-].
    destruct (incidental c); destruct (branch_prefix c) as [b|];
      try destruct (Py.truthy b); discriminate.
Qed.

Lemma test_components_error c e :
  test_components c = Err e -> e = AttributeError \/ e = TypeError.
Proof.
  unfold test_components.
  destruct (String.eqb (type c) "linux"); [|discriminate].
  destruct (version c) as [v|]; [|intros [= <-]; now left].
  destruct (platform c) as [p|]; [discriminate | intros [= <-]; now right].
Qed.

Lemma name_components_nonempty c : name_components c <> [].
Proof.
  unfold name_components.
  destruct (incidental c && negb (Py.mem (stage_label c) split_incidental));
    destruct (version c) as [v|]; try discriminate;
    destruct (Py.truthy v); try discriminate;
    destruct (String.eqb (type c) "linux" && String.eqb (job_label c) "openSUSE"
              && String.eqb v "15"); discriminate.
Qed.

Lemma fold_item_ok stages item stages' :
  stages_ok stages -> fold_item stages item = Ok stages' -> stages_ok stages'.
Proof.
  intros Hall. unfold fold_item.
  set (st := setdefault (stage_name item)
               (Stage.new (stage_name item) (incidental item)) stages).
  assert (Hst : stage_ok st).
  { subst st.
    destruct (setdefault_cases (stage_name item)
                (Stage.new (stage_name item) (incidental item)) stages)
      as [[_ ->] | (s & Hs & ->)].
    - constructor; constructor.
    - apply dict_get_In in Hs.
      exact (proj1 (Forall_forall _ _) Hall _ Hs). }
  destruct (negb (Bool.eqb (Stage.incidental st) (incidental item)));
    [discriminate|].
  destruct (test_components item) as [components|] eqn:Hc; cbn [bind];
    [|discriminate].
  set (tn := Py.join " " (name_components item)).
  set (ty := Py.join "/" components).
  set (tg := setdefault tn (Target.mk tn ty) (Stage.targets st)).
  destruct (negb (Target.type tg =? ty)); [discriminate|].
  intros [= <-]. apply Forall_dict_set; [exact Hall|].
  destruct Hst as [Hcs Hts]. constructor; cbn.
  - apply Forall_app. split; [exact Hcs|]. constructor; eauto.
  - apply Forall_dict_set.
    + eapply Forall_impl; [|exact Hts].
      intros entry (c & Hin & Hof). exists c. split; [|exact Hof].
      apply in_or_app. now left.
    + cbn. subst tg.
      destruct (setdefault_cases tn (Target.mk tn ty) (Stage.targets st))
        as [[_ ->] | (t & Ht & ->)].
      * exists item. split; [apply in_or_app; right; now left|].
        split; [reflexivity|]. exists components. split; [exact Hc | reflexivity].
      * apply dict_get_In in Ht.
        destruct (proj1 (Forall_forall _ _) Hts _ Ht) as (c & Hin & Hof).
        exists c. split; [apply in_or_app; now left | exact Hof].
Qed.

Lemma fold_items_ok items : forall stages stages',
  stages_ok stages -> fold_items stages items = Ok stages' -> stages_ok stages'.
Proof.
  induction items as [|item items IH]; intros stages stages' Hall; simpl.
  - now intros [= <-].
  - destruct (fold_item stages item) as [s1|] eqn:H1; cbn [bind];
      [|discriminate].
    apply IH. exact (fold_item_ok _ _ _ Hall H1).
Qed.

Lemma aggregate_ok cm stages : aggregate cm = Ok stages -> stages_ok stages.
Proof. apply fold_items_ok. constructor. Qed.

(** ** Prefix scans *)

Lemma mapM_total {A B : Type} (f : A -> result B) (l : list A) :
  Forall (fun a => exists b, f a = Ok b) l -> exists bs, mapM f l = Ok bs.
Proof.
  induction 1 as [|a l [b Hb] _ [bs Hbs]]; simpl; [eauto|].
  rewrite Hb, Hbs. cbn [bind]. eauto.
Qed.


Lemma mapM_image {A B : Type} (f : A -> result B) (l : list A) : forall bs b,
  mapM f l = Ok bs -> In b bs -> exists a, In a l /\ f a = Ok b.
Proof.
  induction l as [|x l IH]; intros bs b; simpl; [intros [= <-] []|].
  destruct (f x) as [b0|] eqn:Hx; cbn [bind]; [|discriminate].
  destruct (mapM f l) as [bs'|] eqn:Hl; cbn [bind]; [|discriminate].
  intros [= <-] [<-|Hin].
  - exists x. split; [now left | exact Hx].
  - destruct (IH bs' b eq_refl Hin) as (a & Ha & Hfa).
    exists a. split; [now right | exact Hfa].
Qed.

Lemma last_item_total prefix : prefix <> [] -> exists x, last_item prefix = Ok x.
Proof.
  induction prefix as [|a l IH]; [congruence|]. intros _.
  destruct l as [|b l]; [simpl; eauto|].
  change (last_item (a :: b :: l)) with (last_item (b :: l)).
  apply IH. discriminate.
Qed.

Lemma distinct_single tuples prefix :
  distinct tuples = [prefix] -> forall t, In t tuples -> t = prefix.
Proof.
  intros Hd t Hin. unfold distinct in Hd.
  apply (nodup_In (list_eq_dec string_dec)) in Hin. rewrite Hd in Hin.
  destruct Hin as [<-|[]]. reflexivity.
Qed.

Lemma firstn_nonempty {A : Type} (i : nat) (l : list A) :
  1 <= i -> l <> [] -> firstn i l <> [].
Proof. destruct i; [lia|]. destruct l; [congruence | discriminate]. Qed.

(** The scan returns, and what it returns is the prefix it started from or
    the leading components, of one length, of every tuple. *)
Lemma scan_prefix_spec components range : forall found,
  Forall (fun t => t <> []) components ->
  Forall (fun i => 1 <= i) range ->
  exists prefix,
    scan_prefix components range found = Ok prefix
    /\ (prefix = found
        \/ exists i, forall t, In t components -> firstn i t = prefix).
Proof.
  intros found Hne Hr. revert found.
  induction Hr as [|i range Hi Hr IH]; intros found; simpl; [eauto|].
  destruct (distinct (map (firstn i) components)) as [|prefix [|]] eqn:Hd;
    eauto.
  assert (Hall : forall t, In t components -> firstn i t = prefix).
  { intros t Hin. apply (distinct_single _ _ Hd). now apply in_map. }
  assert (Hp : prefix <> []).
  { assert (Hin : In prefix (distinct (map (firstn i) components)))
      by (rewrite Hd; now left).
    apply (proj1 (nodup_In (list_eq_dec string_dec) _ _)) in Hin.
    apply in_map_iff in Hin as (t & <- & Hin).
    apply firstn_nonempty; [exact Hi|].
    exact (proj1 (Forall_forall _ _) Hne _ Hin). }
  destruct (last_item_total _ Hp) as [x ->]. cbn [bind].
  destruct (negb (Py.truthy x)); [eauto|].
  destruct (IH prefix) as (p & Hs & [->|Hex]); eauto.
Qed.

Lemma common_prefix_spec components :
  Forall (fun t => t <> []) components ->
  exists prefix,
    common_prefix components = Ok prefix
    /\ (prefix = []
        \/ exists i, forall t, In t components -> firstn i t = prefix).
Proof.
  intros Hne. apply scan_prefix_spec; [exact Hne|].
  apply Forall_forall. intros i Hi. apply in_seq in Hi. lia.
Qed.


Lemma test_prefix_total stage :
  stage_ok stage ->
  exists components prefix,
    mapM test_components (Stage.configs stage) = Ok components
    /\ Forall (fun t => t <> []) components
    /\ test_prefix stage = Ok prefix.
Proof.
  intros [Hcs _]. unfold test_prefix.
  destruct (mapM_total _ _ Hcs) as [components Hm].
  assert (Hne : Forall (fun t => t <> []) components).
  { apply Forall_forall. intros t Hin.
    destruct (mapM_image _ _ _ _ Hm Hin) as (c & _ & Hc).
    exact (test_components_nonempty _ _ Hc). }
  destruct (common_prefix_spec _ Hne) as (p & Hp & _).
  exists components, p. rewrite Hm. cbn [bind]. auto.
Qed.

Lemma name_components_all_nonempty configs :
  Forall (fun t => t <> []) (map name_components configs).
Proof.
  apply Forall_forall. intros t Hin. apply in_map_iff in Hin as (c & <- & _).
  apply name_components_nonempty.
Qed.

Lemma name_prefix_total stage : exists prefix, name_prefix stage = Ok prefix.
Proof.
  unfold name_prefix.
  destruct (common_prefix_spec _
              (name_components_all_nonempty (Stage.configs stage)))
    as (p & Hp & _).
  eauto.
Qed.

Lemma content_stage_total stage :
  stage_ok stage -> exists m, content_stage stage = Ok m.
Proof.
  intros Hok. unfold content_stage.
  destruct (test_prefix_total _ Hok) as (cs & tp & _ & _ & ->).
  destruct (name_prefix_total stage) as [np ->].
  cbn [bind]. eauto.
Qed.

(** ** Job accounting *)

Lemma job_count_max stage :
  Stage.job_count stage
  = length (Stage.targets stage) * Nat.max 1 (length (Stage.groups stage)).
Proof.
  unfold Stage.job_count, Stage.target_count, Stage.group_count.
  destruct (length (Stage.groups stage)); reflexivity.
Qed.

Lemma converted_jobs_total stages : converted_jobs stages = total_jobs stages.
Proof.
  unfold converted_jobs, total_jobs. apply f_equal.
  apply map_ext. exact job_count_max.
Qed.

Lemma no_warning_in_counts (stages : list Stage.t) :
  filter is_warning
    (map (fun stage =>
            StageJobs (Stage.name stage) (Stage.target_count stage)
              (Stage.group_count stage) (Stage.job_count stage)) stages)
  = [].
Proof. induction stages as [|s l IH]; [reflexivity | exact IH]. Qed.

Lemma content_stages_total stages :
  stages_ok stages ->
  exists ms, mapM content_stage (dict_values stages) = Ok ms.
Proof.
  intros Hok. apply mapM_total. unfold dict_values.
  apply Forall_map. eapply Forall_impl; [|exact Hok].
  intros entry. apply content_stage_total.
Qed.

(** C2.  Once the aggregation loop has folded every entry, with
    [total_jobs] the sum over the stages of the number of targets times the
    larger of one and the number of groups: fewer jobs than entries make
    [generate_stages] raise the count mismatch; more jobs than entries let
    it return its stages with the surplus warning as the only warning; and
    with as many jobs as entries it returns without any warning. *)
Theorem job_count_check cm stages :
  aggregate cm = Ok stages ->
  (total_jobs stages < length cm ->
   snd (generate_stages cm)
   = Err (MatrixCountMismatch (length cm) (total_jobs stages))
   /\ filter is_warning (fst (generate_stages cm)) = [])
  /\ (length cm < total_jobs stages ->
      (exists content, snd (generate_stages cm) = Ok content)
      /\ filter is_warning (fst (generate_stages cm))
         = [Warning (total_jobs stages) (length cm)])
  /\ (total_jobs stages = length cm ->
      (exists content, snd (generate_stages cm) = Ok content)
      /\ filter is_warning (fst (generate_stages cm)) = []).
Proof.
  intros Ha.
  destruct (content_stages_total _ (aggregate_ok _ _ Ha)) as [ms Hms].
  unfold generate_stages. rewrite Ha, Hms, (converted_jobs_total stages).
  cbn [bind]. conj_split.
  - intros Hlt. apply Nat.ltb_lt in Hlt. rewrite Hlt. cbn [fst snd].
    split; [reflexivity|]. cbn [filter is_warning].
    apply no_warning_in_counts.
  - intros Hgt.
    destruct (Nat.ltb_spec (total_jobs stages) (length cm)) as [|_]; [lia|].
    apply Nat.ltb_lt in Hgt. rewrite Hgt. cbn [fst snd].
    split; [eauto|]. rewrite filter_app. cbn [filter is_warning].
    now rewrite no_warning_in_counts.
  - intros Heq.
    destruct (Nat.ltb_spec (total_jobs stages) (length cm)) as [|_]; [lia|].
    destruct (Nat.ltb_spec (length cm) (total_jobs stages)) as [|_]; [lia|].
    cbn [fst snd]. split; [eauto|]. cbn [filter is_warning].
    apply no_warning_in_counts.
Qed.

Lemma job_count_check_witness :
  snd (generate_stages repeated_matrix) = Err (MatrixCountMismatch 2 1)
  /\ filter is_warning (fst (generate_stages units_matrix)) = [Warning 4 2]
  /\ filter is_warning (fst (generate_stages sanity_matrix)) = [].
Proof.
  conj_split.
  - apply (proj1 (job_count_check repeated_matrix (stages_of repeated_matrix)
                    eq_refl)).
    vm_compute. lia.
  - apply (proj1 (proj2 (job_count_check units_matrix (stages_of units_matrix)
                           eq_refl))).
    vm_compute. lia.
  - apply (proj2 (proj2 (job_count_check sanity_matrix
                           (stages_of sanity_matrix) eq_refl))).
    reflexivity.
Defined.

(** ** Prefix compaction *)





(** ** Group suffix *)

Lemma test_suffix_single stage g :
  Stage.groups stage = [g] -> test_suffix stage = chars g.
Proof. unfold test_suffix. now intros ->. Qed.

Lemma chars_single g : chars g = [g] <-> String.length g = 1.
Proof.
  destruct g as [|a [|b g]]; simpl; split; intros H;
    try reflexivity; discriminate.
Qed.

Lemma stage_groups_several stage g1 g2 gs :
  Stage.groups stage = g1 :: g2 :: gs ->
  test_suffix stage = []
  /\ stage_groups stage = Some (map clean_value (sorted (g1 :: g2 :: gs))).
Proof. unfold test_suffix, stage_groups. now intros ->. Qed.

(** C4 on the matrix of the single entry [T=aws/2.7/10].  The stage has the
    one group [10], yet its path suffix has the two elements [1] and [0],
    and its path format ends in [{0}/1/0] where the group suffix rule puts
    [{0}/10]. *)
Theorem single_group_suffix_split :
  aggregate aws_matrix = Ok [("AWS", first_stage aws_matrix)]
  /\ Stage.groups (first_stage aws_matrix) = ["10"]
  /\ test_prefix (first_stage aws_matrix) = Ok ["aws"; "2.7"]
  /\ test_suffix (first_stage aws_matrix) = ["1"; "0"]
  /\ test_suffix (first_stage aws_matrix) <> ["10"]
  /\ snd (generate_stages aws_matrix)
     = Ok [Matrix (mkMatrixStage "AWS" "AWS" "Python 2.7 {0}"
                     "aws/2.7/{0}/1/0" [(VStr EmptyString, VStr EmptyString)] None);
           Summary ["AWS"]]
  /\ format_string "/" ["aws"; "2.7"] ["10"] = "aws/2.7/{0}/10".
Proof.
  conj_split; try reflexivity. vm_compute. discriminate.
Qed.

(** ** Stage names and the incidental flag *)

Lemma test_types_stage_label ty sl job :
  dict_get ty test_types = Some (sl, job) -> In sl stage_labels.
Proof.
  intros H. apply dict_get_In in H.
  unfold stage_labels. apply in_map_iff. exists (ty, (sl, job)). auto.
Qed.

(** No stage label of the table begins like the incidental stage names. *)
Lemma stage_label_flag sl rest :
  In sl stage_labels -> incidental_name (sl ++ rest) = false.
Proof.
  unfold stage_labels, test_types. cbn [map fst snd].
  intros H. repeat (destruct H as [<-|H]; [reflexivity|]). destruct H.
Qed.

Lemma classified_flag c :
  classified c -> incidental c = incidental_name (stage_name c).
Proof.
  intros Hc. destruct (classified_inv c Hc) as [_ [job Hl]].
  apply test_types_stage_label in Hl.
  unfold stage_name. destruct (incidental c).
  - destruct (Py.mem (stage_label c) split_incidental); reflexivity.
  - symmetry. destruct (branch_name c) as [b|].
    + destruct (Py.truthy b).
      * now apply stage_label_flag.
      * rewrite <- (append_empty_r (stage_label c)).
        now apply stage_label_flag.
    + rewrite <- (append_empty_r (stage_label c)). now apply stage_label_flag.
Qed.

Lemma fold_item_flag stages item :
  classified item -> flags_ok stages ->
  Stage.incidental
    (setdefault (stage_name item)
       (Stage.new (stage_name item) (incidental item)) stages)
  = incidental item
  /\ Stage.name
       (setdefault (stage_name item)
          (Stage.new (stage_name item) (incidental item)) stages)
     = stage_name item.
Proof.
  intros Hc Hall.
  destruct (setdefault_cases (stage_name item)
              (Stage.new (stage_name item) (incidental item)) stages)
    as [[_ ->] | (s & Hs & ->)]; [split; reflexivity|].
  apply dict_get_In in Hs.
  destruct (proj1 (Forall_forall _ _) Hall _ Hs) as [Hk Hf].
  cbn [fst snd] in Hk, Hf.
  rewrite Hf, <- Hk. split; [symmetry; now apply classified_flag | reflexivity].
Qed.

Lemma fold_item_flags stages item stages' :
  classified item -> flags_ok stages ->
  fold_item stages item = Ok stages' -> flags_ok stages'.
Proof.
  intros Hc Hall. destruct (fold_item_flag _ _ Hc Hall) as [Hf Hn].
  unfold fold_item.
  destruct (negb (Bool.eqb _ (incidental item))); [discriminate|].
  destruct (test_components item) as [components|]; cbn [bind];
    [|discriminate].
  match goal with |- context [negb ?b] => destruct (negb b) end;
    [discriminate|].
  intros [= <-]. apply Forall_dict_set; [exact Hall|].
  split; cbn [fst snd Stage.name Stage.incidental].
  - now rewrite Hn.
  - rewrite Hf, Hn. now apply classified_flag.
Qed.

Lemma fold_item_no_conflict stages item n a b :
  classified item -> flags_ok stages ->
  fold_item stages item <> Err (StageIncidentalConflict n a b).
Proof.
  intros Hc Hall. destruct (fold_item_flag _ _ Hc Hall) as [Hf _].
  unfold fold_item. rewrite Hf, Bool.eqb_reflx. cbn [negb].
  destruct (test_components item) as [components|e] eqn:He; cbn [bind].
  - match goal with |- context [negb ?b] => destruct (negb b) end;
      discriminate.
  - destruct (test_components_error _ _ He) as [-> | ->]; discriminate.
Qed.

Lemma fold_items_no_conflict items n a b : forall stages,
  Forall classified items -> flags_ok stages ->
  fold_items stages items <> Err (StageIncidentalConflict n a b).
Proof.
  induction items as [|item items IH]; intros stages Hcs Hall; simpl;
    [discriminate|].
  apply Forall_cons_iff in Hcs as [Hc Hcs].
  destruct (fold_item stages item) as [s1|e] eqn:H1; cbn [bind].
  - apply IH; [exact Hcs|]. exact (fold_item_flags _ _ _ Hc Hall H1).
  - rewrite <- H1. now apply fold_item_no_conflict.
Qed.

(** C9.  The incidental flag of a classified test can be read off its stage
    name, so two classified tests with one stage name have one flag, and
    over classified tests neither the aggregation loop nor
    [generate_stages] raises the stage mismatch between flags. *)
Theorem stage_conflict_unreachable :
  (forall c1 c2,
     classified c1 -> classified c2 ->
     stage_name c1 = stage_name c2 -> incidental c1 = incidental c2)
  /\ (forall cm n a b,
        Forall classified cm ->
        aggregate cm <> Err (StageIncidentalConflict n a b)
        /\ snd (generate_stages cm) <> Err (StageIncidentalConflict n a b)).
Proof.
  split.
  - intros c1 c2 H1 H2 Hn.
    now rewrite (classified_flag c1 H1), (classified_flag c2 H2), Hn.
  - intros cm n a b Hcs.
    assert (Ha : aggregate cm <> Err (StageIncidentalConflict n a b))
      by (apply fold_items_no_conflict; [exact Hcs | constructor]).
    split; [exact Ha|].
    unfold generate_stages.
    destruct (aggregate cm) as [stages|e] eqn:Hagg; cbn [snd];
      [|congruence].
    destruct (content_stages_total _ (aggregate_ok _ _ Hagg)) as [ms ->].
    cbn [bind].
    match goal with |- context [if ?t then _ else _] => destruct t end;
      discriminate.
Qed.

Lemma classified_sample raw c :
  classify_matrix_item all_scripts "tree" true (item_of raw) = Ok c ->
  classified c.
Proof. intros H. red. eauto. Qed.

Lemma stage_conflict_unreachable_witness :
  incidental (config_of "T=i/aws/2.7/1") = incidental (config_of "T=i/units/2.7")
  /\ snd (generate_stages
            [config_of "T=i/aws/2.7/1"; config_of "T=aws/2.7/1"])
     <> Err (StageIncidentalConflict "Incidental" true false).
Proof.
  split.
  - apply (proj1 stage_conflict_unreachable).
    + exact (classified_sample "T=i/aws/2.7/1" _ eq_refl).
    + exact (classified_sample "T=i/units/2.7" _ eq_refl).
    + reflexivity.
  - apply (proj2 stage_conflict_unreachable).
    repeat constructor.
    + exact (classified_sample "T=i/aws/2.7/1" _ eq_refl).
    + exact (classified_sample "T=aws/2.7/1" _ eq_refl).
Defined.

(** ** The scenarios of the specification *)

Example scenario_sanity :
  classify_matrix_item all_scripts "tree" true (item_of "T=sanity")
  = Ok (mkTestConfig "Sanity" "Test" "sanity" None None None false None None)
  /\ test (config_of "T=sanity") = Ok "sanity"
  /\ name_components (config_of "T=sanity") = ["Test"].
Proof. conj_split; reflexivity. Qed.

Example scenario_units_version :
  version (config_of "T=units/3.6") = Some "3.6"
  /\ group (config_of "T=units/3.6") = None
  /\ test (config_of "T=units/3.6") = Ok "units/3.6"
  /\ Py.join " " (name_components (config_of "T=units/3.6")) = "Python 3.6".
Proof. conj_split; reflexivity. Qed.

Example scenario_units_group :
  version (config_of "T=units/1") = None
  /\ group (config_of "T=units/1") = Some "1"
  /\ test (config_of "T=units/1") = Ok "units/1"
  /\ Py.join " " (name_components (config_of "T=units/1")) = "Python".
Proof. conj_split; reflexivity. Qed.

Example scenario_docker :
  classify_matrix_item all_scripts "tree" true (item_of "T=linux/centos7")
  = Ok (mkTestConfig "Docker" "CentOS" "linux" (Some "centos") (Some "7")
          None false None None)
  /\ test (config_of "T=linux/centos7") = Ok "linux/centos7"
  /\ Py.join " " (name_components (config_of "T=linux/centos7")) = "CentOS 7".
Proof. conj_split; reflexivity. Qed.

Example scenario_incidental_docker :
  incidental (config_of "T=i/linux/centos7") = true
  /\ stage_name (config_of "T=i/linux/centos7") = "Incidental Docker"
  /\ Py.join " " (name_components (config_of "T=i/linux/centos7"))
     = "CentOS 7".
Proof. conj_split; reflexivity. Qed.

Example scenario_branch_prefix :
  branch_prefix (config_of "T=devel/sanity") = Some "devel"
  /\ stage_name (config_of "T=devel/sanity") = "Sanity devel"
  /\ test (config_of "T=devel/sanity") = Ok "devel/sanity".
Proof. conj_split; reflexivity. Qed.

(** A missing companion script is reported after the round trip. *)
Example missing_script :
  classify_matrix_item (fun _ => false) "tree" true (item_of "T=i/sanity")
  = Err (MissingScript "sanity"
           "tree/tests/utils/shippable/incidental/sanity.sh").
Proof. reflexivity. Qed.

(** * Further properties *)

(** ** The decoder *)

Lemma dict_get_absent {V : Type} (k : string) (d : dict V) :
  dict_get k d = None <-> ~ In k (map fst d).
Proof.
  induction d as [|[k' v'] d IH]; simpl; [tauto|].
  destruct (String.eqb_spec k k') as [->|Hn].
  - split; [discriminate | intros H; exfalso; apply H; now left].
  - rewrite IH. split; [intros H [He|Hin]; [congruence | tauto] | tauto].
Qed.

Lemma dict_set_keys {V : Type} (k : string) (v : V) (d : dict V) :
  map fst (dict_set k v d) = set_add k (map fst d).
Proof.
  unfold set_add, Py.mem.
  induction d as [|[k' v'] d IH]; [reflexivity|].
  simpl. destruct (String.eqb_spec k k') as [->|Hn]; [reflexivity|].
  simpl. rewrite IH. now destruct (existsb (String.eqb k) (map fst d)).
Qed.

Lemma mem_true_iff (x : string) (l : list string) :
  Py.mem x l = true <-> In x l.
Proof. split; [apply mem_In | apply In_mem]. Qed.

Lemma mem_false_iff (x : string) (l : list string) :
  Py.mem x l = false <-> ~ In x l.
Proof.
  rewrite <- mem_true_iff. destruct (Py.mem x l); split; congruence.
Qed.

Lemma set_add_NoDup (k : string) (l : list string) :
  NoDup l -> NoDup (set_add k l).
Proof.
  intros Hl. unfold set_add. destruct (Py.mem k l) eqn:Hm; [exact Hl|].
  apply mem_false_iff in Hm.
  apply NoDup_app; [exact Hl | repeat constructor; intros [] | ].
  intros x Hx [<-|[]]. contradiction.
Qed.

Lemma set_add_In (k x : string) (l : list string) :
  In x (set_add k l) <-> x = k \/ In x l.
Proof.
  unfold set_add. destruct (Py.mem k l) eqn:Hm.
  - apply mem_true_iff in Hm. split; [tauto | intros [->|H]; assumption].
  - rewrite in_app_iff. simpl. split; [intros [H|[<-|[]]]; auto | ].
    intros [->|H]; auto.
Qed.

Lemma dict_of_pairs_NoDup {V : Type} (pairs : list (string * V)) :
  NoDup (map fst (dict_of_pairs pairs)).
Proof.
  unfold dict_of_pairs.
  assert (H : forall d : dict V,
             NoDup (map fst d) ->
             NoDup (map fst (fold_left
                               (fun d kv => dict_set (fst kv) (snd kv) d)
                               pairs d))).
  { induction pairs as [|[k v] pairs IH]; intros d Hd; [exact Hd|].
    simpl. apply IH. rewrite dict_set_keys. now apply set_add_NoDup. }
  apply H. constructor.
Qed.

Lemma dict_remove_absent {V : Type} (k : string) (d : dict V) :
  NoDup (map fst d) -> dict_get k (dict_remove k d) = None.
Proof.
  induction d as [|[k' v'] d IH]; simpl; [reflexivity|].
  intros Hd. apply NoDup_cons_iff in Hd as [Hk Hd].
  destruct (String.eqb_spec k k') as [->|Hn].
  - now apply dict_get_absent.
  - simpl. destruct (String.eqb_spec k k'); [contradiction | now apply IH].
Qed.

Lemma dict_remove_keys {V : Type} (k x : string) (d : dict V) :
  In x (map fst (dict_remove k d)) -> In x (map fst d).
Proof.
  induction d as [|[k' v'] d IH]; [exact (fun H => H)|].
  cbn [dict_remove]. destruct (String.eqb k k'); cbn [map fst In]; tauto.
Qed.

Lemma dict_remove_NoDup {V : Type} (k : string) (d : dict V) :
  NoDup (map fst d) -> NoDup (map fst (dict_remove k d)).
Proof.
  induction d as [|[k' v'] d IH]; [exact (fun H => H)|].
  cbn [dict_remove map fst]. intros Hn.
  apply NoDup_cons_iff in Hn as [Hk Hn].
  destruct (String.eqb k k'); [exact Hn|].
  cbn [map fst]. constructor; [|now apply IH].
  intros Hin. apply Hk. exact (dict_remove_keys _ _ _ Hin).
Qed.

Lemma parse_matrix_item_inv raw item :
  parse_matrix_item raw = Ok item ->
  exists pairs,
    mapM dict_item (Py.split " "%char raw) = Ok pairs
    /\ dict_get "T" (dict_of_pairs pairs) = Some (MatrixItem.test item)
    /\ item = MatrixItem.mk raw (MatrixItem.test item)
                (dict_remove "T" (dict_of_pairs pairs))
                (Py.split "/"%char (MatrixItem.test item)).
Proof.
  unfold parse_matrix_item, dict_pop.
  destruct (mapM dict_item (Py.split " "%char raw)) as [pairs|]; cbn [bind];
    [|discriminate].
  destruct (dict_get "T" (dict_of_pairs pairs)) as [t|] eqn:Ht; cbn [bind];
    [|discriminate].
  intros [= <-]. exists pairs. cbn. auto.
Qed.

(** X1.  A decoded entry keeps the raw string; its path segments are not
    empty as a sequence, hold no slash, and joined by slashes give back the
    path string; and the key [T] is gone from the remaining pairs. *)
Theorem parse_matrix_item_path raw item :
  parse_matrix_item raw = Ok item ->
  MatrixItem.raw item = raw
  /\ MatrixItem.parts item <> []
  /\ Py.join "/" (MatrixItem.parts item) = MatrixItem.test item
  /\ Forall (fun part => Py.contains "/"%char part = false)
       (MatrixItem.parts item)
  /\ dict_get "T" (MatrixItem.values item) = None
  /\ NoDup (map fst (MatrixItem.values item)).
Proof.
  intros H. destruct (parse_matrix_item_inv _ _ H) as (pairs & _ & _ & ->).
  cbn. conj_split.
  - reflexivity.
  - apply split_nonempty.
  - apply split_join.
  - apply split_pieces.
  - apply dict_remove_absent, dict_of_pairs_NoDup.
  - apply dict_remove_NoDup, dict_of_pairs_NoDup.
Qed.

Lemma parse_matrix_item_path_witness :
  Py.join "/" (MatrixItem.parts (item_of "T=units/2.7/1 A_REV=devel"))
  = MatrixItem.test (item_of "T=units/2.7/1 A_REV=devel")
  /\ dict_get "T" (MatrixItem.values (item_of "T=units/2.7/1 A_REV=devel"))
     = None.
Proof.
  pose proof (parse_matrix_item_path "T=units/2.7/1 A_REV=devel"
                (item_of "T=units/2.7/1 A_REV=devel") eq_refl)
    as (_ & _ & Hj & _ & Hg & _).
  split; [exact Hj | exact Hg].
Defined.

(** X2.  The decoder fails in two ways only: with [ValueError] on a token
    that is not a pair, and with [KeyError] for [T]; and it raises the
    [KeyError] whenever every token is a pair and none has the key [T]. *)
Theorem parse_matrix_item_failures raw :
  (forall e, parse_matrix_item raw = Err e ->
             e = ValueError \/ e = KeyError "T")
  /\ (forall pairs,
        mapM dict_item (Py.split " "%char raw) = Ok pairs ->
        (forall value, ~ In ("T", value) pairs) ->
        parse_matrix_item raw = Err (KeyError "T")).
Proof.
  split.
  - intros e. unfold parse_matrix_item, dict_pop.
    destruct (mapM dict_item (Py.split " "%char raw)) as [pairs|e'] eqn:Hm;
      cbn [bind].
    + destruct (dict_get "T" (dict_of_pairs pairs)); cbn [bind];
        [discriminate | intros [= <-]; now right].
    + intros [= <-]. left. exact (mapM_dict_item_error _ _ Hm).
  - intros pairs Hm Hno. unfold parse_matrix_item, dict_pop. rewrite Hm.
    cbn [bind]. rewrite dict_of_pairs_last.
    destruct (find (fun kv => String.eqb "T" (fst kv)) (rev pairs))
      as [[k v]|] eqn:Hf; [|reflexivity].
    apply find_some in Hf as [Hin He]. cbv beta in He.
    change (fst (k, v)) with k in He.
    apply String.eqb_eq in He. subst k.
    apply in_rev in Hin. now apply Hno in Hin.
Qed.

Lemma parse_matrix_item_failures_witness :
  parse_matrix_item "A_REV=devel B=1" = Err (KeyError "T").
Proof.
  apply (proj2 (parse_matrix_item_failures "A_REV=devel B=1")
           [("A_REV", "devel"); ("B", "1")] eq_refl).
  intros value [H|[H|[]]]; discriminate.
Defined.

(** ** The classifier *)

Lemma get_test_config_shape test_type parts inc bp bk c :
  get_test_config test_type parts inc bp bk = Ok c ->
  exists stage job pl v g,
    dict_get test_type test_types = Some (stage, job)
    /\ decode_parts test_type job parts = Ok (pl, v, g)
    /\ ((test_type <> "linux"
         /\ c = mkTestConfig stage job test_type pl v g inc bp bk)
        \/ (test_type = "linux"
            /\ exists alias name ver,
                 v = Some alias
                 /\ dict_get alias docker_types = Some (name, ver)
                 /\ c = mkTestConfig stage name test_type
                          (Some (Py.lower name)) (Some ver) g inc bp bk)).
Proof.
  unfold get_test_config.
  destruct (dict_get test_type test_types) as [[sl jl]|]; [|discriminate].
  destruct (decode_parts test_type jl parts) as [[[pl v] g]|] eqn:Hd;
    cbn [bind]; [|discriminate].
  destruct (String.eqb_spec test_type "linux") as [He|Hn].
  - destruct (Py.truthy_opt pl || negb (Py.truthy_opt v)); [discriminate|].
    destruct v as [alias|]; [|discriminate].
    destruct (dict_get alias docker_types) as [[dn dv]|] eqn:Hk;
      [|discriminate].
    intros [= <-]. exists sl, jl, pl, (Some alias), g.
    split; [reflexivity | split; [exact Hd|]].
    right. split; [exact He|]. exists alias, dn, dv. auto.
  - intros [= <-]. exists sl, jl, pl, v, g.
    split; [reflexivity | split; [exact Hd|]]. left. auto.
Qed.

Lemma get_test_config_errors test_type parts inc bp bk e :
  get_test_config test_type parts inc bp bk = Err e ->
  e = UnknownTestType test_type parts \/ e = UnhandledArity test_type parts
  \/ e = UnexpectedParameters parts
  \/ exists alias, e = UnknownDockerAlias alias parts.
Proof.
  unfold get_test_config.
  destruct (dict_get test_type test_types) as [[sl jl]|];
    [|intros [= <-]; now left].
  destruct (decode_parts test_type jl parts) as [[[pl v] g]|e'] eqn:Hd;
    cbn [bind].
  - destruct (String.eqb test_type "linux"); [|discriminate].
    destruct (Py.truthy_opt pl || negb (Py.truthy_opt v));
      [intros [= <-]; auto|].
    destruct v as [alias|]; [|intros [= <-]; auto].
    destruct (dict_get alias docker_types) as [[dn dv]|]; [discriminate|].
    intros [= <-]. right. right. right. eauto.
  - intros [= <-]. right. left.
    unfold decode_parts in Hd.
    destruct parts as [|a [|b [|x [|y parts]]]]; try discriminate.
    + destruct (String.eqb jl "Python"); [|discriminate].
      destruct (Py.contains "." a); discriminate.
    + now injection Hd as <-.
Qed.

Lemma get_test_config_not_index test_type parts inc bp bk :
  get_test_config test_type parts inc bp bk <> Err IndexError.
Proof.
  intros H. apply get_test_config_errors in H
    as [H|[H|[H|[a H]]]]; discriminate.
Qed.

Lemma get_test_config_error_kind test_type parts inc bp bk e :
  get_test_config test_type parts inc bp bk = Err e ->
  classification_error e = true.
Proof.
  intros H. apply get_test_config_errors in H
    as [->|[->|[->|[a ->]]]]; reflexivity.
Qed.

Lemma decode_path_errors bp bk parts e :
  decode_path bp bk parts = Err e ->
  (e = IndexError /\ (parts = [] \/ parts = ["i"]))
  \/ (e <> IndexError /\ classification_error e = true).
Proof.
  unfold decode_path. destruct parts as [|p0 rest]; cbn [first bind].
  - intros [= <-]. left. auto.
  - destruct (String.eqb_spec p0 "i") as [->|Hn].
    + cbn [tl]. destruct rest as [|ty rest]; cbn [first bind tl].
      * intros [= <-]. left. auto.
      * destruct (get_test_config ty rest true bp bk) as [c|e'] eqn:Hg;
          cbn [bind]; [discriminate|].
        intros [= <-]. right. split.
        -- intros ->. exact (get_test_config_not_index _ _ _ _ _ Hg).
        -- exact (get_test_config_error_kind _ _ _ _ _ _ Hg).
    + cbn [first bind tl].
      destruct (get_test_config p0 rest false bp bk) as [c|e'] eqn:Hg;
        cbn [bind]; [discriminate|].
      intros [= <-]. right. split.
      * intros ->. exact (get_test_config_not_index _ _ _ _ _ Hg).
      * exact (get_test_config_error_kind _ _ _ _ _ _ Hg).
Qed.

Lemma resolve_branch_cases parts values :
  (parts = [] /\ resolve_branch parts values = Err IndexError)
  \/ (exists b rest,
        parts = b :: rest /\ In b ansible_branches
        /\ resolve_branch parts values = Ok (Some b, None, rest, values))
  \/ (exists p0 rest,
        parts = p0 :: rest /\ ~ In p0 ansible_branches
        /\ exists bk values',
             resolve_branch parts values = Ok (None, bk, parts, values')
             /\ (values = [] -> values' = [] /\ bk = None)).
Proof.
  unfold resolve_branch. destruct parts as [|p0 rest]; [left; auto|].
  cbn [first bind tl].
  destruct (Py.mem p0 ansible_branches) eqn:Hm.
  - right. left. exists p0, rest. apply mem_true_iff in Hm. auto.
  - right. right. exists p0, rest. apply mem_false_iff in Hm.
    split; [reflexivity | split; [exact Hm|]].
    destruct (find_branch values) as [[k v]|] eqn:Hf.
    + exists (Some (k, v)), (dict_remove k values).
      split; [reflexivity|]. intros ->. discriminate.
    + exists None, values. split; [reflexivity|]. auto.
Qed.

Lemma decode_matrix_item_errors item e :
  decode_matrix_item item = Err e ->
  classification_error e = true
  /\ (e = IndexError -> MatrixItem.parts item <> [] ->
      exists b, In b ansible_branches
        /\ (MatrixItem.parts item = [b] \/ MatrixItem.parts item = ["i"]
            \/ MatrixItem.parts item = [b; "i"])).
Proof.
  unfold decode_matrix_item.
  destruct (resolve_branch_cases (MatrixItem.parts item)
              (MatrixItem.values item))
    as [[Hp ->] | [(b & rest & Hp & Hb & ->) | (p0 & rest & Hp & Hb & bk
                                                   & values' & -> & _)]];
    cbn [bind].
  - intros [= <-]. split; [reflexivity | intros _ Hne; contradiction].
  - destruct (MatrixItem.values item) as [|kv vs].
    + intros Hd. apply decode_path_errors in Hd
        as [[-> Hs] | [Hne Hk]].
      * split; [reflexivity|]. intros _ _. exists b. split; [exact Hb|].
        rewrite Hp. destruct Hs as [-> | ->]; auto.
      * split; [exact Hk | intros He; contradiction].
    + intros [= <-]. split; [reflexivity | discriminate].
  - destruct values' as [|kv vs].
    + intros Hd. apply decode_path_errors in Hd
        as [[-> Hs] | [Hne Hk]].
      * split; [reflexivity|]. intros _ Hne. exists "devel".
        split; [simpl; auto|]. destruct Hs as [Hs | Hs]; [contradiction|].
        auto.
      * split; [exact Hk | intros He; contradiction].
    + intros [= <-]. split; [reflexivity | discriminate].
Qed.

Lemma classify_errors pe path ic item e :
  classify_matrix_item pe path ic item = Err e ->
  decode_matrix_item item = Err e
  \/ (exists t, e = ReconstructionMismatch t (MatrixItem.test item))
  \/ (exists ty sp, e = MissingScript ty sp).
Proof.
  unfold classify_matrix_item.
  destruct (decode_matrix_item item) as [[c ty]|e'] eqn:Hd; cbn [bind];
    [|intros [= <-]; now left].
  destruct (decode_matrix_item_test _ _ _ Hd) as [t ->]. cbn [bind].
  destruct (negb (MatrixItem.test item =? t)); [intros [= <-]; eauto|].
  match goal with |- context [negb ?b] => destruct (negb b) end;
    [intros [= <-]; eauto | discriminate].
Qed.

(** X3.  Whatever entry it is given, the classifier raises nothing but its
    own failures and the out-of-range index: never a type or attribute
    error from the reconstruction, nor any failure of the decoder or the
    aggregator. *)
Theorem classify_failure_kinds pe path ic item e :
  classify_matrix_item pe path ic item = Err e ->
  classification_error e = true.
Proof.
  intros H. apply classify_errors in H
    as [H | [[t ->] | (ty & sp & ->)]]; try reflexivity.
  exact (proj1 (decode_matrix_item_errors _ _ H)).
Qed.

Lemma classify_failure_kinds_witness :
  classification_error (ReconstructionMismatch "units/2.7" "units/2.7/")
  = true.
Proof.
  apply (classify_failure_kinds all_scripts "tree" true
           (item_of "T=units/2.7/")).
  reflexivity.
Defined.

(** X4.  On an entry with at least one path segment the classifier raises
    [IndexError] only when the path is a recognised branch alone, the
    incidental marker alone, or a branch followed by the marker alone. *)
Theorem classify_index_error_only pe path ic item :
  MatrixItem.parts item <> [] ->
  classify_matrix_item pe path ic item = Err IndexError ->
  exists b, In b ansible_branches
    /\ (MatrixItem.parts item = [b] \/ MatrixItem.parts item = ["i"]
        \/ MatrixItem.parts item = [b; "i"]).
Proof.
  intros Hne H. apply classify_errors in H
    as [H | [[t H] | (ty & sp & H)]]; try discriminate.
  exact (proj2 (decode_matrix_item_errors _ _ H) eq_refl Hne).
Qed.

Lemma classify_index_error_only_witness :
  exists b, In b ansible_branches
    /\ (MatrixItem.parts (item_of "T=2.9/i") = [b]
        \/ MatrixItem.parts (item_of "T=2.9/i") = ["i"]
        \/ MatrixItem.parts (item_of "T=2.9/i") = [b; "i"]).
Proof.
  apply (classify_index_error_only all_scripts "tree" true
           (item_of "T=2.9/i")).
  - discriminate.
  - reflexivity.
Defined.

Lemma classify_of_decode pe path ic item c test_type :
  decode_matrix_item item = Ok (c, test_type) ->
  test c = Ok (MatrixItem.test item) ->
  pe (script_path path ic (incidental c) test_type) = true ->
  classify_matrix_item pe path ic item = Ok c.
Proof.
  intros Hd Ht Hpe. unfold classify_matrix_item. rewrite Hd. cbn [bind].
  rewrite Ht. cbn [bind]. rewrite String.eqb_refl. cbn [negb].
  unfold script_path in Hpe. rewrite Hpe. reflexivity.
Qed.

(** No type token of the table is a branch or the incidental marker. *)
Lemma table_key_plain test_type entry :
  dict_get test_type test_types = Some entry ->
  Py.mem test_type ansible_branches = false
  /\ String.eqb test_type "i" = false.
Proof.
  intros H. apply dict_get_In in H. unfold test_types in H.
  repeat (destruct H as [H|H]; [injection H as <- _; split; reflexivity|]).
  destruct H.
Qed.

Lemma decode_leading item bp inc test_type rest entry :
  MatrixItem.values item = [] ->
  MatrixItem.parts item = (leading_segments bp inc ++ test_type :: rest)%list ->
  match bp with Some b => In b ansible_branches | None => True end ->
  dict_get test_type test_types = Some entry ->
  decode_matrix_item item
  = (c <- get_test_config test_type rest inc bp None ;; Ok (c, test_type)).
Proof.
  intros Hv Hp Hb Ht. destruct (table_key_plain _ _ Ht) as [Hm Hi].
  unfold decode_matrix_item, resolve_branch, leading_segments in *.
  rewrite Hp, Hv. destruct bp as [b|].
  - cbn [app first bind tl]. rewrite (In_mem _ _ Hb).
    unfold decode_path. destruct inc; cbn [app first bind tl].
    + reflexivity.
    + rewrite Hi. reflexivity.
  - destruct inc; cbn [app first bind tl].
    + reflexivity.
    + rewrite Hm. change (find_branch []) with (@None (string * string)).
      unfold decode_path. cbn [first bind tl]. rewrite Hi. reflexivity.
Qed.

Lemma test_plain stage job test_type pl v g inc bp rest :
  String.eqb test_type "linux" = false ->
  decode_parts test_type job rest = Ok (pl, v, g) ->
  Forall (fun s => Py.truthy s = true) rest ->
  match bp with Some b => In b ansible_branches | None => True end ->
  test (mkTestConfig stage job test_type pl v g inc bp None)
  = Ok (Py.join "/" (leading_segments bp inc ++ test_type :: rest)).
Proof.
  intros Hl Hd Hr Hb.
  assert (Hbt : match bp with Some b => Py.truthy b = true | None => True end).
  { destruct bp as [b|]; [|exact I]. exact (proj1 (recognised_branch b Hb)). }
  unfold test, test_components, leading_segments. cbn [type platform version
    group incidental branch_prefix]. rewrite Hl. cbn [bind].
  unfold decode_parts in Hd.
  destruct rest as [|a [|b' [|x [|y rest]]]]; try discriminate.
  - injection Hd as <- <- <-.
    destruct inc; destruct bp as [b|]; cbn; try rewrite Hbt; reflexivity.
  - apply Forall_cons_iff in Hr as [Ha _].
    destruct (String.eqb job "Python"); [destruct (Py.contains "." a)|];
      injection Hd as <- <- <-;
      destruct inc; destruct bp as [b|]; cbn; try rewrite Hbt;
      try rewrite Ha; reflexivity.
  - apply Forall_cons_iff in Hr as [_ Hr].
    apply Forall_cons_iff in Hr as [Hg _].
    injection Hd as <- <- <-.
    destruct inc; destruct bp as [b|]; cbn; try rewrite Hbt;
      rewrite Hg; reflexivity.
  - apply Forall_cons_iff in Hr as [_ Hr].
    apply Forall_cons_iff in Hr as [_ Hr].
    apply Forall_cons_iff in Hr as [Hg _].
    injection Hd as <- <- <-.
    destruct inc; destruct bp as [b|]; cbn; try rewrite Hbt;
      rewrite Hg; reflexivity.
Qed.

Lemma decode_parts_total test_type job rest :
  length rest <= 3 ->
  exists pl v g, decode_parts test_type job rest = Ok (pl, v, g).
Proof.
  intros Hlen. unfold decode_parts.
  destruct rest as [|a [|b [|x [|y rest]]]]; simpl in Hlen; try lia; eauto.
  destruct (String.eqb job "Python"); [destruct (Py.contains "." a)|]; eauto.
Qed.

(** X5.  Acceptance.  An entry without further pairs whose path is an
    optional recognised branch, an optional incidental marker, a type token
    of the table other than [linux], and at most three further segments,
    none of them empty, is classified whenever its companion script
    exists; the descriptor carries the labels of the table and the fields
    that the arity rule assigns. *)
Theorem classify_accepts pe path ic item bp inc test_type rest stage job :
  MatrixItem.values item = [] ->
  MatrixItem.parts item = (leading_segments bp inc ++ test_type :: rest)%list ->
  MatrixItem.test item = Py.join "/" (MatrixItem.parts item) ->
  match bp with Some b => In b ansible_branches | None => True end ->
  dict_get test_type test_types = Some (stage, job) ->
  test_type <> "linux" ->
  length rest <= 3 ->
  Forall (fun s => Py.truthy s = true) rest ->
  pe (script_path path ic inc test_type) = true ->
  exists pl v g,
    decode_parts test_type job rest = Ok (pl, v, g)
    /\ classify_matrix_item pe path ic item
       = Ok (mkTestConfig stage job test_type pl v g inc bp None).
Proof.
  intros Hv Hp Ht Hb Hty Hn Hlen Hr Hpe.
  destruct (decode_parts_total test_type job rest Hlen) as (pl & v & g & Hd).
  exists pl, v, g. split; [exact Hd|].
  assert (Hl : String.eqb test_type "linux" = false)
    by now apply String.eqb_neq.
  apply classify_of_decode with (test_type := test_type).
  - rewrite (decode_leading _ _ _ _ _ _ Hv Hp Hb Hty).
    unfold get_test_config. rewrite Hty, Hd. cbn [bind]. rewrite Hl.
    reflexivity.
  - rewrite Ht, Hp. now apply test_plain.
  - exact Hpe.
Qed.

Lemma classify_accepts_witness :
  exists pl v g,
    decode_parts "aws" "Python" ["2.7"; "1"] = Ok (pl, v, g)
    /\ classify_matrix_item all_scripts "tree" true
         (item_of "T=stable-2.9/i/aws/2.7/1")
       = Ok (mkTestConfig "AWS" "Python" "aws" pl v g true
               (Some "stable-2.9") None).
Proof.
  apply (classify_accepts all_scripts "tree" true
           (item_of "T=stable-2.9/i/aws/2.7/1")
           (Some "stable-2.9") true "aws" ["2.7"; "1"] "AWS" "Python").
  - reflexivity.
  - reflexivity.
  - reflexivity.
  - simpl. auto.
  - reflexivity.
  - discriminate.
  - simpl. lia.
  - repeat constructor.
  - reflexivity.
Defined.

(** Every docker alias is the lower-cased job label followed by the
    version without spaces and periods, and is not empty. *)
Lemma docker_alias_spelling alias name ver :
  dict_get alias docker_types = Some (name, ver) ->
  Py.lower name ++ Py.replace "." EmptyString (Py.replace " " EmptyString ver)
  = alias
  /\ Py.truthy alias = true.
Proof.
  intros H. apply dict_get_In in H. unfold docker_types in H.
  repeat (destruct H as [H|H]; [injection H as <- <- <-; split; reflexivity|]).
  destruct H.
Qed.

(** X6.  Every alias of the docker table is accepted: an entry without
    further pairs whose path is an optional recognised branch, an optional
    incidental marker, [linux], an alias of the table and an optional
    non-empty group is classified whenever its companion script exists,
    with the job label and version of the table and the lower-cased job
    label as platform. *)
Theorem classify_accepts_docker pe path ic item bp inc alias name ver grp :
  MatrixItem.values item = [] ->
  MatrixItem.parts item
  = (leading_segments bp inc
     ++ "linux" :: alias :: match grp with Some g => [g] | None => [] end)%list ->
  MatrixItem.test item = Py.join "/" (MatrixItem.parts item) ->
  match bp with Some b => In b ansible_branches | None => True end ->
  match grp with Some g => Py.truthy g = true | None => True end ->
  dict_get alias docker_types = Some (name, ver) ->
  pe (script_path path ic inc "linux") = true ->
  classify_matrix_item pe path ic item
  = Ok (mkTestConfig "Docker" name "linux" (Some (Py.lower name)) (Some ver)
          grp inc bp None).
Proof.
  intros Hv Hp Ht Hb Hg Hk Hpe.
  destruct (docker_alias_spelling _ _ _ Hk) as [Hs Ha].
  assert (Hbt : match bp with Some b => Py.truthy b = true | None => True end).
  { destruct bp as [b|]; [|exact I]. exact (proj1 (recognised_branch b Hb)). }
  apply classify_of_decode with (test_type := "linux").
  - rewrite (decode_leading _ _ _ _ _ ("Docker", EmptyString) Hv Hp Hb eq_refl).
    unfold get_test_config.
    change (dict_get "linux" test_types) with (Some ("Docker", EmptyString)).
    destruct grp as [g|]; cbn [decode_parts bind String.eqb Ascii.eqb
      Bool.eqb Py.truthy_opt orb negb]; rewrite Ha, Hk; reflexivity.
  - rewrite Ht, Hp. unfold test, test_components, leading_segments.
    cbn [type platform version group incidental branch_prefix].
    cbn [String.eqb Ascii.eqb Bool.eqb bind]. rewrite Hs.
    destruct grp as [g|]; destruct inc; destruct bp as [b|]; cbn;
      try rewrite Hbt; try rewrite Hg; reflexivity.
  - exact Hpe.
Qed.

Lemma classify_accepts_docker_witness :
  classify_matrix_item all_scripts "tree" false
    (item_of "T=i/linux/ubuntu1804/2")
  = Ok (mkTestConfig "Docker" "Ubuntu" "linux" (Some "ubuntu") (Some "18.04")
          (Some "2") true None None).
Proof.
  apply (classify_accepts_docker all_scripts "tree" false
           (item_of "T=i/linux/ubuntu1804/2") None true "ubuntu1804"
           "Ubuntu" "18.04" (Some "2"));
    try reflexivity; exact I.
Defined.

Lemma test_components_length c components :
  test_components c = Ok components ->
  1 <= length components <= 5.
Proof.
  unfold test_components.
  destruct (String.eqb (type c) "linux").
  - destruct (version c) as [v|]; [|discriminate].
    destruct (platform c) as [p|]; [|discriminate].
    cbn [bind]. intros [= <-].
    destruct (incidental c); destruct (branch_prefix c) as [b|];
      try destruct (Py.truthy b); simpl; lia.
  - cbn [bind]. intros [= <-].
    destruct (platform c), (version c), (incidental c);
      destruct (branch_prefix c) as [b|];
      try destruct (Py.truthy b); simpl; lia.
Qed.

Lemma name_components_length c : 1 <= length (name_components c) <= 3.
Proof.
  unfold name_components.
  destruct (incidental c && negb (Py.mem (stage_label c) split_incidental));
    destruct (version c) as [v|]; try (simpl; lia);
    destruct (Py.truthy v); try (simpl; lia);
    destruct (String.eqb (type c) "linux" && String.eqb (job_label c) "openSUSE"
              && String.eqb v "15"); simpl; lia.
Qed.

Lemma decode_matrix_item_shape item c test_type :
  decode_matrix_item item = Ok (c, test_type) ->
  exists inc rest bp bk,
    get_test_config test_type rest inc bp bk = Ok c
    /\ (bp = None \/ bk = None).
Proof.
  unfold decode_matrix_item.
  destruct (resolve_branch_cases (MatrixItem.parts item)
              (MatrixItem.values item))
    as [[Hp ->] | [(b & rest & Hp & Hb & ->) | (p0 & rest & Hp & Hb & bk
                                                   & values' & -> & _)]];
    cbn [bind]; [discriminate | |].
  - destruct (MatrixItem.values item); [|discriminate].
    intros Hd. destruct (decode_path_inv _ _ _ _ _ Hd) as (inc & r & Hg).
    exists inc, r, (Some b), None. auto.
  - destruct values'; [|discriminate].
    intros Hd. destruct (decode_path_inv _ _ _ _ _ Hd) as (inc & r & Hg).
    exists inc, r, None, bk. auto.
Qed.

(** X7.  What every classified descriptor satisfies: at most one of the two
    branch fields is set, and only to a recognised branch; its type is a
    key of the type table, whose stage label it carries, and whose job
    label it carries too unless the type is [linux]; a [linux] descriptor
    has the stage label [Docker], a job label and version of the docker
    table, and the lower-cased job label as platform; its test components
    are defined and number one to five, its name components one to
    three. *)
Theorem classified_well_formed c :
  classified c ->
  (branch_prefix c = None \/ branch_kvp c = None)
  /\ branches_recognised c
  /\ (exists job,
        dict_get (type c) test_types = Some (stage_label c, job)
        /\ (type c <> "linux" -> job_label c = job))
  /\ (type c = "linux" ->
      stage_label c = "Docker"
      /\ exists ver,
           version c = Some ver
           /\ platform c = Some (Py.lower (job_label c))
           /\ In (job_label c, ver) (dict_values docker_types))
  /\ (exists components,
        test_components c = Ok components
        /\ 1 <= length components <= 5)
  /\ 1 <= length (name_components c) <= 3.
Proof.
  intros Hc. destruct (classified_inv c Hc) as [Hrec _].
  destruct Hc as (pe & path & ic & item & Hcl).
  destruct (classify_decode _ _ _ _ _ Hcl) as [ty Hd].
  assert (Hcomp : exists components,
             test_components c = Ok components
             /\ 1 <= length components <= 5).
  { destruct (decode_matrix_item_test _ _ _ Hd) as [t Ht].
    unfold test in Ht.
    destruct (test_components c) as [components|] eqn:Hcs; [|discriminate].
    exists components. split; [reflexivity|].
    exact (test_components_length _ _ Hcs). }
  pose proof (name_components_length c) as Hname.
  destruct (decode_matrix_item_shape _ _ _ Hd)
    as (inc & rest & bp & bk & Hg & Hex).
  split; [|split; [exact Hrec | split; [|split; [|split; assumption]]]].
  - destruct (get_test_config_inv _ _ _ _ _ _ Hg) as (_ & _ & -> & -> & _).
    exact Hex.
  - destruct (get_test_config_shape _ _ _ _ _ _ Hg)
      as (stage & job & pl & v & g & Hty & Hdp
          & [[Hn ->] | (-> & alias & name & ver & -> & Hk & ->)]);
      cbn [type stage_label job_label].
    + exists job. auto.
    + exists job. split; [exact Hty | intros H; contradiction].
  - destruct (get_test_config_shape _ _ _ _ _ _ Hg)
      as (stage & job & pl & v & g & Hty & Hdp
          & [[Hn ->] | (-> & alias & name & ver & -> & Hk & ->)]);
      cbn [type stage_label job_label version platform].
    + intros He. contradiction.
    + change (dict_get "linux" test_types)
        with (Some ("Docker", EmptyString)) in Hty.
      injection Hty as <- <-.
      intros _. split; [reflexivity|]. exists ver.
      split; [reflexivity | split; [reflexivity|]].
      apply dict_get_In in Hk. unfold dict_values.
      change (name, ver) with (snd (alias, (name, ver))). now apply in_map.
Qed.

Lemma classified_well_formed_witness :
  branches_recognised (config_of "T=aws/2.7/1 A_REV=stable-2.10")
  /\ 1 <= length (name_components (config_of "T=aws/2.7/1 A_REV=stable-2.10"))
     <= 3.
Proof.
  pose proof (classified_well_formed
                (config_of "T=aws/2.7/1 A_REV=stable-2.10")
                (classified_sample "T=aws/2.7/1 A_REV=stable-2.10" _ eq_refl))
    as (_ & Hr & _ & _ & _ & Hn).
  split; [exact Hr | exact Hn].
Defined.

(** ** What the aggregation loop builds *)

Lemma first_seen_snoc (l : list string) (x : string) :
  first_seen (l ++ [x]) = set_add x (first_seen l).
Proof. unfold first_seen. now rewrite fold_left_app. Qed.

Lemma first_seen_NoDup (l : list string) : NoDup (first_seen l).
Proof.
  induction l as [|x l IH] using rev_ind; [constructor|].
  rewrite first_seen_snoc. now apply set_add_NoDup.
Qed.

Lemma first_seen_In (l : list string) (x : string) :
  In x (first_seen l) <-> In x l.
Proof.
  induction l as [|y l IH] using rev_ind; [reflexivity|].
  rewrite first_seen_snoc, set_add_In, in_app_iff, IH. simpl.
  split; [intros [->|H]; auto | intros [H|[->|[]]]; auto].
Qed.

Lemma dict_set_absent {V : Type} (k : string) (v : V) (d : dict V) :
  dict_get k d = None -> dict_set k v d = (d ++ [(k, v)])%list.
Proof.
  induction d as [|[k' v'] d IH]; [reflexivity|].
  cbn [dict_get dict_set app]. destruct (String.eqb k k'); [discriminate|].
  intros H. now rewrite IH.
Qed.

Lemma Forall_dict_set_other {V : Type} (P : string * V -> Prop) (k : string)
    (v : V) (d : dict V) :
  NoDup (map fst d) ->
  (forall entry, In entry d -> fst entry <> k -> P entry) ->
  P (k, v) -> Forall P (dict_set k v d).
Proof.
  intros Hn Hold Hnew. induction d as [|[k' v'] d IH];
    [repeat constructor; exact Hnew|].
  cbn [dict_set]. cbn [map fst] in Hn.
  apply NoDup_cons_iff in Hn as [Hk Hn].
  destruct (String.eqb_spec k k') as [<-|Hne].
  - constructor; [exact Hnew|]. apply Forall_forall. intros [k2 v2] Hin.
    apply Hold; [now right|]. cbn. intros ->. apply Hk.
    change k with (fst (k, v2)). now apply in_map.
  - constructor.
    + apply Hold; [now left | cbn; congruence].
    + apply IH; [exact Hn|]. intros entry Hin. apply Hold. now right.
Qed.

Lemma filter_snoc {A : Type} (f : A -> bool) (l : list A) (x : A) :
  filter f (l ++ [x]) = (filter f l ++ if f x then [x] else [])%list.
Proof. rewrite filter_app. cbn. now destruct (f x). Qed.

Lemma filter_none {A : Type} (f : A -> bool) (l : list A) :
  (forall x, In x l -> f x = false) -> filter f l = [].
Proof.
  induction l as [|a l IH]; [reflexivity|]. intros H. cbn.
  rewrite (H a (or_introl eq_refl)). apply IH. intros x Hx. apply H. now right.
Qed.

Lemma groups_of_snoc (configs : list TestConfig) (c : TestConfig) :
  groups_of (configs ++ [c])
  = (groups_of configs
     ++ match group c with
        | Some g => if Py.truthy g then [g] else []
        | None => []
        end)%list.
Proof. unfold groups_of. rewrite flat_map_app. cbn. now rewrite app_nil_r. Qed.

Lemma stage_inv_new done k flag :
  ~ In k (map stage_name done) -> stage_inv done k (Stage.new k flag).
Proof.
  intros Hk. constructor; cbn; try constructor; try reflexivity.
  symmetry. apply filter_none. intros c Hc. apply String.eqb_neq.
  intros <-. apply Hk. now apply in_map.
Qed.

Lemma stage_inv_other done k s item :
  stage_name item <> k -> stage_inv done k s ->
  stage_inv (done ++ [item]) k s.
Proof.
  intros Hne [H1 H2 H3 H4 H5 H6]. constructor; try assumption.
  rewrite filter_snoc. apply String.eqb_neq in Hne. rewrite Hne.
  now rewrite app_nil_r.
Qed.

Lemma fold_item_inv done stages item stages' :
  stages_inv done stages ->
  fold_item stages item = Ok stages' ->
  stages_inv (done ++ [item]) stages'.
Proof.
  intros [Hkeys Hall]. unfold fold_item.
  set (k := stage_name item).
  set (st := setdefault k (Stage.new k (incidental item)) stages).
  assert (Hnd : NoDup (map fst stages))
    by (rewrite Hkeys; apply first_seen_NoDup).
  assert (Hst : stage_inv done k st).
  { subst st.
    destruct (setdefault_cases k (Stage.new k (incidental item)) stages)
      as [[Hnone ->] | (s & Hs & ->)].
    - apply stage_inv_new. apply dict_get_absent in Hnone.
      rewrite Hkeys, first_seen_In in Hnone. exact Hnone.
    - apply dict_get_In in Hs.
      exact (proj1 (Forall_forall _ _) Hall _ Hs). }
  destruct (Bool.eqb (Stage.incidental st) (incidental item)) eqn:Hflag;
    cbn [negb]; [|discriminate].
  apply Bool.eqb_prop in Hflag.
  destruct (test_components item) as [components|] eqn:Hc; cbn [bind];
    [|discriminate].
  fold (target_name_of item).
  set (tn := target_name_of item).
  set (ty := Py.join "/" components).
  set (tg := setdefault tn (Target.mk tn ty) (Stage.targets st)).
  destruct (String.eqb_spec (Target.type tg) ty) as [Hty|]; cbn [negb];
    [|discriminate].
  intros [= <-].
  destruct Hst as [H1 H2 H3 H4 H5 H6].
  assert (Htg : tg = Target.mk tn ty).
  { subst tg.
    destruct (setdefault_cases tn (Target.mk tn ty) (Stage.targets st))
      as [[_ ->] | (t & Ht & Heq)]; [reflexivity|].
    rewrite Heq in *.
    assert (Hin : In tn (map fst (Stage.targets st))).
    { apply dict_get_In in Ht. change tn with (fst (tn, t)).
      now apply in_map. }
    rewrite H5, first_seen_In in Hin.
    apply in_map_iff in Hin as (c & Hcn & Hcin).
    destruct (proj1 (Forall_forall _ _) H6 _ Hcin) as (cs & _ & Hget).
    rewrite Hcn, Ht in Hget. injection Hget as ->.
    cbn in Hty. now rewrite Hty. }
  split.
  - rewrite dict_set_keys, Hkeys, map_app. cbn [map].
    rewrite first_seen_snoc. reflexivity.
  - apply Forall_dict_set_other; [exact Hnd | |].
    + intros [k' s'] Hin Hne. cbn [fst snd] in *.
      apply stage_inv_other; [intros He; apply Hne; symmetry; exact He|].
      exact (proj1 (Forall_forall _ _) Hall _ Hin).
    + cbn [fst snd]. constructor; cbn [Stage.name Stage.configs
        Stage.incidental Stage.groups Stage.targets].
      * exact H1.
      * rewrite filter_snoc. fold k. rewrite String.eqb_refl. now rewrite H2.
      * apply Forall_app. split; [exact H3|]. constructor; [|constructor].
        now symmetry.
      * rewrite groups_of_snoc.
        destruct (group item) as [g|];
          [destruct (Py.truthy g)|]; rewrite ?app_nil_r;
          try exact H4.
        rewrite first_seen_snoc. now rewrite H4.
      * rewrite dict_set_keys, H5, map_app. cbn [map].
        rewrite first_seen_snoc. reflexivity.
      * apply Forall_app. split.
        -- eapply Forall_impl; [|exact H6].
           intros c (cs & Hcs & Hget). exists cs. split; [exact Hcs|].
           rewrite dict_get_set.
           destruct (String.eqb_spec (target_name_of c) tn) as [He|];
             [|exact Hget].
           subst tg. unfold setdefault. rewrite <- He, Hget. reflexivity.
        -- constructor; [|constructor]. exists components.
           split; [exact Hc|]. fold tn. rewrite dict_get_set_same.
           now rewrite Htg.
Qed.

Lemma fold_items_inv items : forall done stages stages',
  stages_inv done stages ->
  fold_items stages items = Ok stages' ->
  stages_inv (done ++ items) stages'.
Proof.
  induction items as [|item items IH]; intros done stages stages' Hinv; simpl.
  - intros [= <-]. now rewrite app_nil_r.
  - destruct (fold_item stages item) as [s1|] eqn:H1; cbn [bind];
      [|discriminate].
    intros H2.
    replace (done ++ item :: items)%list with ((done ++ [item]) ++ items)%list
      by (rewrite <- app_assoc; reflexivity).
    eapply IH; [|exact H2]. exact (fold_item_inv _ _ _ _ Hinv H1).
Qed.

Lemma aggregate_inv cm stages :
  aggregate cm = Ok stages -> stages_inv cm stages.
Proof.
  intros H. apply (fold_items_inv cm [] [] stages); [|exact H].
  split; [reflexivity | constructor].
Qed.

Lemma stages_inv_entry cm stages k s :
  aggregate cm = Ok stages -> In (k, s) stages -> stage_inv cm k s.
Proof.
  intros Ha Hin. destruct (aggregate_inv _ _ Ha) as [_ Hall].
  exact (proj1 (Forall_forall _ _) Hall _ Hin).
Qed.

(** X8.  The stages come in the order in which their names first occur in
    the matrix, no name twice, and each stage is stored under its name. *)
Theorem aggregate_stage_order cm stages :
  aggregate cm = Ok stages ->
  map fst stages = first_seen (map stage_name cm)
  /\ NoDup (map fst stages)
  /\ Forall (fun entry => Stage.name (snd entry) = fst entry) stages.
Proof.
  intros Ha. destruct (aggregate_inv _ _ Ha) as [Hkeys Hall].
  split; [exact Hkeys | split].
  - rewrite Hkeys. apply first_seen_NoDup.
  - eapply Forall_impl; [|exact Hall]. intros entry H. exact (inv_name _ _ _ H).
Qed.

Lemma aggregate_stage_order_witness :
  map fst (stages_of [config_of "T=units/2.7/1"; config_of "T=i/aws/2.7/1";
                      config_of "T=units/3.6/1"; config_of "T=sanity/1"])
  = ["Units"; "Incidental"; "Sanity"].
Proof.
  exact (proj1 (aggregate_stage_order
                  [config_of "T=units/2.7/1"; config_of "T=i/aws/2.7/1";
                   config_of "T=units/3.6/1"; config_of "T=sanity/1"]
                  (stages_of [config_of "T=units/2.7/1";
                              config_of "T=i/aws/2.7/1";
                              config_of "T=units/3.6/1";
                              config_of "T=sanity/1"])
                  eq_refl)).
Defined.

Lemma list_sum_cons (a : nat) (l : list nat) :
  list_sum (a :: l) = a + list_sum l.
Proof. reflexivity. Qed.

Lemma list_sum_indicator_absent (k : string) (ks : list string) :
  ~ In k ks ->
  list_sum (map (fun k' => if String.eqb k k' then 1 else 0) ks) = 0.
Proof.
  induction ks as [|b ks IH]; [reflexivity|]. intros Hk.
  cbn [map]. rewrite list_sum_cons.
  destruct (String.eqb_spec k b) as [->|_].
  - exfalso. apply Hk. now left.
  - apply IH. intros H. apply Hk. now right.
Qed.

Lemma list_sum_indicator (k : string) (ks : list string) :
  NoDup ks -> In k ks ->
  list_sum (map (fun k' => if String.eqb k k' then 1 else 0) ks) = 1.
Proof.
  induction ks as [|a ks IH]; [intros _ []|].
  intros Hn Hin. apply NoDup_cons_iff in Hn as [Ha Hn].
  cbn [map]. rewrite list_sum_cons.
  destruct (String.eqb_spec k a) as [->|Hne].
  - now rewrite list_sum_indicator_absent.
  - destruct Hin as [->|Hin]; [contradiction|]. now rewrite IH.
Qed.

Lemma list_sum_filter_lengths (names ks : list string) :
  NoDup ks -> (forall n, In n names -> In n ks) ->
  list_sum (map (fun k => length (filter (fun n => String.eqb n k) names)) ks)
  = length names.
Proof.
  intros Hn. induction names as [|n names IH]; intros Hin.
  - cbn [filter length]. clear. induction ks as [|k ks IHk]; [reflexivity|].
    cbn [map]. now rewrite list_sum_cons, IHk.
  - assert (Hsplit :
      list_sum (map (fun k => length (filter (fun n0 => String.eqb n0 k)
                                        (n :: names))) ks)
      = list_sum (map (fun k => if String.eqb n k then 1 else 0) ks)
        + list_sum (map (fun k => length (filter (fun n0 => String.eqb n0 k)
                                            names)) ks)).
    { clear. induction ks as [|k ks IHk]; [reflexivity|].
      cbn [map]. rewrite !list_sum_cons, IHk. cbn [filter].
      destruct (String.eqb n k); cbn [length]; lia. }
    rewrite Hsplit, IH by (intros m Hm; apply Hin; now right).
    rewrite list_sum_indicator; [reflexivity | exact Hn |].
    apply Hin. now left.
Qed.

Lemma filter_map_length (cm : list TestConfig) (k : string) :
  length (filter (fun c => String.eqb (stage_name c) k) cm)
  = length (filter (fun n => String.eqb n k) (map stage_name cm)).
Proof.
  induction cm as [|c cm IH]; [reflexivity|]. cbn [map filter].
  destruct (String.eqb (stage_name c) k); cbn [length]; now rewrite IH.
Qed.

(** X9.  The stages partition the matrix: the configs of a stage are the
    entries of the matrix with its name, in their order; there is at least
    one, and all of them carry the flag of the stage; and the stages hold
    as many configs together as the matrix has entries. *)
Theorem aggregate_partition cm stages :
  aggregate cm = Ok stages ->
  (forall k s, In (k, s) stages ->
     Stage.configs s = filter (fun c => String.eqb (stage_name c) k) cm
     /\ Stage.configs s <> []
     /\ Forall (fun c => incidental c = Stage.incidental s) (Stage.configs s))
  /\ list_sum (map (fun entry => length (Stage.configs (snd entry))) stages)
     = length cm.
Proof.
  intros Ha. destruct (aggregate_inv _ _ Ha) as [Hkeys Hall]. split.
  - intros k s Hin.
    pose proof (proj1 (Forall_forall _ _) Hall _ Hin) as Hs. cbn in Hs.
    split; [exact (inv_configs _ _ _ Hs) | split; [|exact (inv_flag _ _ _ Hs)]].
    rewrite (inv_configs _ _ _ Hs).
    assert (Hk : In k (map stage_name cm)).
    { rewrite <- first_seen_In, <- Hkeys. change k with (fst (k, s)).
      now apply in_map. }
    apply in_map_iff in Hk as (c & Hc & Hcin).
    intros Hnil.
    assert (Hf : In c (filter (fun c => String.eqb (stage_name c) k) cm)).
    { apply filter_In. split; [exact Hcin|]. rewrite Hc.
      apply String.eqb_refl. }
    rewrite Hnil in Hf. destruct Hf.
  - rewrite <- (length_map stage_name cm).
    rewrite <- (list_sum_filter_lengths (map stage_name cm) (map fst stages)).
    + rewrite map_map. apply f_equal. apply map_ext_in. intros [k s] Hin.
      pose proof (proj1 (Forall_forall _ _) Hall _ Hin) as Hs. cbn in Hs.
      cbn [fst snd]. rewrite (inv_configs _ _ _ Hs). apply filter_map_length.
    + rewrite Hkeys. apply first_seen_NoDup.
    + intros n Hn. rewrite Hkeys. now apply first_seen_In.
Qed.

Lemma aggregate_partition_witness :
  Stage.configs (first_stage units_matrix) = units_matrix
  /\ list_sum (map (fun entry => length (Stage.configs (snd entry)))
                 (stages_of repeated_matrix)) = 2.
Proof.
  split.
  - exact (proj1 (proj1 (aggregate_partition units_matrix
                           (stages_of units_matrix) eq_refl)
                    "Units" (first_stage units_matrix)
                    (or_introl eq_refl))).
  - exact (proj2 (aggregate_partition repeated_matrix
                    (stages_of repeated_matrix) eq_refl)).
Defined.

Lemma dict_get_NoDup {V : Type} (k : string) (v : V) (d : dict V) :
  NoDup (map fst d) -> In (k, v) d -> dict_get k d = Some v.
Proof.
  induction d as [|[k' v'] d IH]; [intros _ []|].
  cbn [map fst dict_get]. intros Hn Hin.
  apply NoDup_cons_iff in Hn as [Hk Hn].
  destruct Hin as [[= -> ->]|Hin]; [now rewrite String.eqb_refl|].
  destruct (String.eqb_spec k k') as [->|_]; [|now apply IH].
  exfalso. apply Hk. change k' with (fst (k', v)). now apply in_map.
Qed.

(** X10.  Within a stage, the set of groups holds exactly the non-empty
    groups of its configs, each once; the targets are stored under the
    display names of its configs, in the order of first occurrence and
    without repeats.  Every config finds, under its display name, the
    target made of that name and of its joined test components, so configs
    that share a display name share their test path; and every target is
    the target of one of the configs. *)
Theorem aggregate_targets cm stages k s :
  aggregate cm = Ok stages -> In (k, s) stages ->
  NoDup (Stage.groups s)
  /\ (forall g, In g (Stage.groups s) <-> In g (groups_of (Stage.configs s)))
  /\ map fst (Stage.targets s)
     = first_seen (map target_name_of (Stage.configs s))
  /\ (forall c, In c (Stage.configs s) ->
        exists components,
          test_components c = Ok components
          /\ dict_get (target_name_of c) (Stage.targets s)
             = Some (Target.mk (target_name_of c) (Py.join "/" components)))
  /\ (forall c1 c2 cs1 cs2,
        In c1 (Stage.configs s) -> In c2 (Stage.configs s) ->
        target_name_of c1 = target_name_of c2 ->
        test_components c1 = Ok cs1 -> test_components c2 = Ok cs2 ->
        Py.join "/" cs1 = Py.join "/" cs2)
  /\ (forall tn t, In (tn, t) (Stage.targets s) ->
        exists c components,
          In c (Stage.configs s) /\ test_components c = Ok components
          /\ tn = target_name_of c
          /\ t = Target.mk tn (Py.join "/" components)).
Proof.
  intros Ha Hin. destruct (stages_inv_entry _ _ _ _ Ha Hin)
    as [H1 H2 H3 H4 H5 H6].
  pose proof (proj1 (Forall_forall _ _) H6) as Hget.
  split; [rewrite H4; apply first_seen_NoDup|].
  split; [intros g; rewrite H4; apply first_seen_In|].
  split; [exact H5 | split; [exact Hget | split]].
  - intros c1 c2 cs1 cs2 Hc1 Hc2 Hn Ht1 Ht2.
    destruct (Hget _ Hc1) as (x1 & Hx1 & Hg1).
    destruct (Hget _ Hc2) as (x2 & Hx2 & Hg2).
    rewrite Ht1 in Hx1. rewrite Ht2 in Hx2.
    injection Hx1 as <-. injection Hx2 as <-.
    rewrite Hn, Hg2 in Hg1. now injection Hg1.
  - intros tn t Ht.
    assert (Hk : In tn (map fst (Stage.targets s)))
      by (change tn with (fst (tn, t)); now apply in_map).
    rewrite H5, first_seen_In in Hk.
    apply in_map_iff in Hk as (c & Hc & Hcin).
    destruct (Hget _ Hcin) as (cs & Hcs & Hg).
    exists c, cs. split; [exact Hcin | split; [exact Hcs | split; [now symmetry|]]].
    assert (Hnd : NoDup (map fst (Stage.targets s)))
      by (rewrite H5; apply first_seen_NoDup).
    rewrite Hc in Hg. rewrite (dict_get_NoDup _ _ _ Hnd Ht) in Hg.
    now injection Hg.
Qed.

Lemma aggregate_targets_witness :
  NoDup (Stage.groups (first_stage units_matrix))
  /\ In "2" (Stage.groups (first_stage units_matrix))
  /\ map fst (Stage.targets (first_stage units_matrix))
     = ["Python 2.7"; "Python 3.6"].
Proof.
  pose proof (aggregate_targets units_matrix (stages_of units_matrix)
                "Units" (first_stage units_matrix) eq_refl
                (or_introl eq_refl)) as (Hn & Hg & Ht & _).
  split; [exact Hn | split; [|exact Ht]].
  apply (proj2 (Hg "2")). right. left. reflexivity.
Defined.

(** ** Failures of the aggregator *)

Lemma classified_components c :
  classified c -> exists components, test_components c = Ok components.
Proof.
  intros (pe & path & ic & item & H).
  destruct (classify_decode _ _ _ _ _ H) as [ty Hd].
  destruct (decode_matrix_item_test _ _ _ Hd) as [t Ht].
  unfold test in Ht. destruct (test_components c) as [cs|]; [eauto|].
  discriminate.
Qed.

Lemma fold_item_errors stages item e :
  fold_item stages item = Err e ->
  (exists n a b, e = StageIncidentalConflict n a b)
  \/ (exists tn t1 t2, e = TargetTypeConflict tn t1 t2 /\ t1 <> t2)
  \/ e = AttributeError \/ e = TypeError.
Proof.
  unfold fold_item.
  destruct (negb (Bool.eqb _ (incidental item)));
    [intros [= <-]; left; eauto|].
  destruct (test_components item) as [components|e'] eqn:Hc; cbn [bind].
  - match goal with
    | |- context [String.eqb ?a ?b] =>
        destruct (String.eqb_spec a b) as [|Hne]
    end; cbn [negb]; [discriminate|].
    intros [= <-]. right. left. eauto.
  - intros [= <-]. right. right. exact (test_components_error _ _ Hc).
Qed.

Lemma fold_items_classified items : forall stages e,
  Forall classified items -> flags_ok stages ->
  fold_items stages items = Err e ->
  exists tn t1 t2, e = TargetTypeConflict tn t1 t2 /\ t1 <> t2.
Proof.
  induction items as [|item items IH]; intros stages e Hcs Hall; simpl;
    [discriminate|].
  apply Forall_cons_iff in Hcs as [Hc Hcs].
  destruct (fold_item stages item) as [s1|e'] eqn:H1; cbn [bind].
  - apply IH; [exact Hcs|]. exact (fold_item_flags _ _ _ Hc Hall H1).
  - intros [= <-].
    destruct (fold_item_errors _ _ _ H1)
      as [(n & a & b & ->) | [H | [-> | ->]]].
    + exfalso. exact (fold_item_no_conflict _ _ _ _ _ Hc Hall H1).
    + exact H.
    + exfalso. destruct (classified_components _ Hc) as [cs Hcs'].
      unfold fold_item in H1.
      destruct (negb (Bool.eqb _ (incidental item))); [discriminate|].
      rewrite Hcs' in H1. cbn [bind] in H1.
      match type of H1 with
      | context [negb ?b] => destruct (negb b)
      end; discriminate.
    + exfalso. destruct (classified_components _ Hc) as [cs Hcs'].
      unfold fold_item in H1.
      destruct (negb (Bool.eqb _ (incidental item))); [discriminate|].
      rewrite Hcs' in H1. cbn [bind] in H1.
      match type of H1 with
      | context [negb ?b] => destruct (negb b)
      end; discriminate.
Qed.

(** X11.  Over classified tests the aggregation loop fails in one way only:
    two entries of one stage with one display name and different test
    paths; and [generate_stages] fails with that or with the count
    mismatch, which reports fewer jobs than entries. *)
Theorem generate_stages_failures cm e :
  Forall classified cm ->
  (aggregate cm = Err e ->
   exists tn t1 t2, e = TargetTypeConflict tn t1 t2 /\ t1 <> t2)
  /\ (snd (generate_stages cm) = Err e ->
      (exists tn t1 t2, e = TargetTypeConflict tn t1 t2 /\ t1 <> t2)
      \/ (exists jobs, e = MatrixCountMismatch (length cm) jobs
                       /\ jobs < length cm)).
Proof.
  intros Hcs.
  assert (Ha : aggregate cm = Err e ->
               exists tn t1 t2, e = TargetTypeConflict tn t1 t2 /\ t1 <> t2).
  { apply fold_items_classified; [exact Hcs | constructor]. }
  split; [exact Ha|].
  unfold generate_stages.
  destruct (aggregate cm) as [stages|e'] eqn:Hagg; cbn [snd].
  - destruct (content_stages_total _ (aggregate_ok _ _ Hagg)) as [ms ->].
    cbn [bind].
    destruct (Nat.ltb_spec (converted_jobs stages) (length cm)) as [Hlt|];
      cbn [snd]; [|discriminate].
    intros [= <-]. right. eauto.
  - intros [= <-]. left. now apply Ha.
Qed.

Lemma generate_stages_failures_witness :
  exists tn t1 t2,
    TargetTypeConflict "Python 2.7" "devel/units/2.7" "units/2.7"
    = TargetTypeConflict tn t1 t2 /\ t1 <> t2.
Proof.
  apply (proj1 (generate_stages_failures
                  [config_of "T=devel/units/2.7";
                   config_of "T=units/2.7 A_REV=devel"]
                  (TargetTypeConflict "Python 2.7" "devel/units/2.7"
                     "units/2.7")
                  (Forall_cons _
                     (classified_sample "T=devel/units/2.7" _ eq_refl)
                     (Forall_cons _
                        (classified_sample "T=units/2.7 A_REV=devel" _ eq_refl)
                        (Forall_nil _))))).
  reflexivity.
Defined.

(** ** The stages returned *)

Lemma mapM_Forall2 {A B : Type} (f : A -> result B) (l : list A) : forall bs,
  mapM f l = Ok bs -> Forall2 (fun a b => f a = Ok b) l bs.
Proof.
  induction l as [|a l IH]; intros bs; simpl.
  - intros [= <-]. constructor.
  - destruct (f a) as [b|] eqn:Ha; cbn [bind]; [|discriminate].
    destruct (mapM f l) as [bs'|]; cbn [bind]; [|discriminate].
    intros [= <-]. constructor; [exact Ha | now apply IH].
Qed.

Lemma content_stage_identifier s m :
  content_stage s = Ok m ->
  stage m = Py.replace "." "_" (Py.replace " " "_" (Stage.name s)).
Proof.
  unfold content_stage.
  destruct (test_prefix s) as [tp|]; cbn [bind]; [|discriminate].
  destruct (name_prefix s) as [np|]; cbn [bind]; [|discriminate].
  intros [= <-]. reflexivity.
Qed.

(** X12.  When [generate_stages] returns, its result is one matrix stage
    for every stage of the aggregation, in the same order, each identified
    by the name of that stage with its spaces and periods turned into
    underscores, followed by one summary stage that depends on all of
    those identifiers in that order; and the stages make at least as many
    jobs as the matrix has entries. *)
Theorem generate_stages_output cm content :
  snd (generate_stages cm) = Ok content ->
  exists stages ms,
    aggregate cm = Ok stages
    /\ content
       = (map Matrix ms
          ++ [Summary (map identifier_of (map fst stages))])%list
    /\ map stage ms = map identifier_of (map fst stages)
    /\ length cm <= total_jobs stages.
Proof.
  unfold generate_stages.
  destruct (aggregate cm) as [stages|] eqn:Ha; cbn [snd]; [|discriminate].
  destruct (Nat.ltb_spec (converted_jobs stages) (length cm)) as [|Hle];
    cbn [snd]; [discriminate|].
  destruct (mapM content_stage (dict_values stages)) as [ms|] eqn:Hms;
    cbn [bind]; [|discriminate].
  intros [= <-]. exists stages, ms.
  destruct (aggregate_inv _ _ Ha) as [_ Hall].
  assert (Hid : map stage ms = map identifier_of (map fst stages)).
  { apply mapM_Forall2 in Hms. unfold dict_values in Hms.
    clear -Hms Hall. revert ms Hms.
    induction Hall as [|[k s] stages Hs _ IH]; intros ms Hms;
      inversion Hms as [|? m ? ms' Hm Hrest]; subst; [reflexivity|].
    cbn [map fst]. rewrite (IH _ Hrest).
    rewrite (content_stage_identifier _ _ Hm).
    cbn [fst snd] in Hs. now rewrite (inv_name _ _ _ Hs). }
  conj_split.
  - reflexivity.
  - rewrite map_map. cbn [content_stage_name].
    change (map (fun x => stage x) ms) with (map stage ms).
    now rewrite Hid.
  - exact Hid.
  - now rewrite <- converted_jobs_total.
Qed.

Lemma generate_stages_output_witness :
  exists stages ms,
    aggregate units_matrix = Ok stages
    /\ content_of units_matrix
       = (map Matrix ms
          ++ [Summary (map identifier_of (map fst stages))])%list
    /\ map stage ms = map identifier_of (map fst stages)
    /\ length units_matrix <= total_jobs stages.
Proof.
  apply (generate_stages_output units_matrix (content_of units_matrix)).
  reflexivity.
Defined.

Lemma prefix_empty (s : string) : String.prefix EmptyString s = true.
Proof. now destruct s. Qed.

Lemma replace_char (a b : ascii) (s : string) :
  Py.replace (String a EmptyString) (String b EmptyString) s
  = subst_char a b s.
Proof.
  unfold Py.replace. induction s as [|c s IH]; [reflexivity|].
  cbn [Py.replace_from subst_char String.prefix String.length Nat.sub].
  rewrite prefix_empty.
  destruct (ascii_dec a c) as [<-|Hn].
  - rewrite Ascii.eqb_refl. cbn [String.append]. now rewrite IH.
  - destruct (Ascii.eqb_spec c a) as [->|_]; [contradiction|]. now rewrite IH.
Qed.

Lemma subst_char_absent (a b : ascii) (s : string) :
  a <> b -> Py.contains a (subst_char a b s) = false.
Proof.
  intros Hab. induction s as [|c s IH]; [reflexivity|].
  cbn [subst_char Py.contains]. rewrite IH, orb_false_r.
  destruct (Ascii.eqb_spec c a) as [->|Hn]; apply Ascii.eqb_neq; congruence.
Qed.

Lemma subst_char_keeps_absent (a b x : ascii) (s : string) :
  x <> b -> Py.contains x s = false ->
  Py.contains x (subst_char a b s) = false.
Proof.
  intros Hxb. induction s as [|c s IH]; [reflexivity|].
  cbn [subst_char Py.contains]. intros H.
  apply orb_false_iff in H as [Hc Hs]. rewrite (IH Hs), orb_false_r.
  destruct (Ascii.eqb c a); [apply Ascii.eqb_neq; congruence | exact Hc].
Qed.

Lemma subst_char_length (a b : ascii) (s : string) :
  String.length (subst_char a b s) = String.length s.
Proof. induction s as [|c s IH]; [reflexivity|]. cbn. now rewrite IH. Qed.

(** X13.  The identifier of a stage is its display name with every space
    and every period turned into an underscore: it has the length of the
    name and holds neither a space nor a period. *)
Theorem stage_identifier s m :
  content_stage s = Ok m ->
  stage m = subst_char "." "_" (subst_char " " "_" (Stage.name s))
  /\ String.length (stage m) = String.length (Stage.name s)
  /\ Py.contains " " (stage m) = false
  /\ Py.contains "." (stage m) = false.
Proof.
  intros H. rewrite (content_stage_identifier _ _ H).
  rewrite !replace_char. conj_split.
  - reflexivity.
  - now rewrite !subst_char_length.
  - apply subst_char_keeps_absent; [discriminate|].
    apply subst_char_absent. discriminate.
  - apply subst_char_absent. discriminate.
Qed.

Lemma stage_identifier_witness :
  Py.contains " " "Sanity_2_9" = false
  /\ Py.contains "." "Sanity_2_9" = false.
Proof.
  pose proof (stage_identifier
                (first_stage [config_of "T=sanity/1 A_REV=stable-2.9";
                              config_of "T=sanity/2 A_REV=stable-2.9"])
                (mkMatrixStage "Sanity_2_9" "Sanity 2.9" "Test {0}"
                   "sanity/{0}" [(VInt 1, VInt 1); (VInt 2, VInt 2)] None)
                eq_refl) as (_ & _ & Hs & Hp).
  split; [exact Hs | exact Hp].
Defined.

(** ** Lines of text *)

Lemma has_linebreak_app (a b : string) :
  Text.has_linebreak (a ++ b)
  = (Text.has_linebreak a || Text.has_linebreak b)%bool.
Proof.
  induction a as [|c a IH]; [reflexivity|].
  cbn [String.append Text.has_linebreak]. rewrite IH. apply orb_assoc.
Qed.

Lemma splitlines_line (line rest : string) :
  Text.has_linebreak line = false ->
  Text.splitlines (line ++ Text.newline ++ rest)
  = line :: Text.splitlines rest.
Proof.
  induction line as [|c line IH]; intros H.
  - cbn [String.append Text.newline]. cbn [Text.splitlines].
    change (Text.is_linebreak "010") with true. cbv iota.
    change (Ascii.eqb "010" "013") with false. cbn [andb].
    now destruct rest.
  - cbn [Text.has_linebreak] in H. apply orb_false_iff in H as [Hc Hl].
    cbn [String.append Text.splitlines]. rewrite Hc, (IH Hl). reflexivity.
Qed.

Lemma splitlines_join (lines : list string) :
  lines <> [] ->
  Forall (fun line => Text.has_linebreak line = false) lines ->
  Text.splitlines (Py.join Text.newline lines ++ Text.newline) = lines.
Proof.
  induction lines as [|l lines IH]; [congruence|]. intros _ Hall.
  apply Forall_cons_iff in Hall as [Hl Hall].
  destruct lines as [|l2 lines].
  - cbn [Py.join String.concat].
    rewrite <- (append_empty_r Text.newline).
    now rewrite (splitlines_line l EmptyString Hl).
  - rewrite join_cons by discriminate. rewrite !append_assoc.
    rewrite (splitlines_line _ _ Hl). now rewrite IH by (discriminate || assumption).
Qed.

Lemma splitlines_no_break (s : string) :
  Forall (fun line => Text.has_linebreak line = false) (Text.splitlines s).
Proof.
  assert (H : forall n s, String.length s <= n ->
            Forall (fun line => Text.has_linebreak line = false)
              (Text.splitlines s)).
  { clear s. induction n as [|n IH]; intros s Hn.
    - destruct s; [constructor | simpl in Hn; lia].
    - destruct s as [|c s]; [constructor|].
      cbn [String.length] in Hn. cbn [Text.splitlines].
      destruct (Text.is_linebreak c) eqn:Hc.
      + constructor; [reflexivity|].
        destruct s as [|c' s]; [constructor|].
        destruct (Ascii.eqb c "013" && Ascii.eqb c' "010")%bool;
          apply IH; cbn [String.length] in *; lia.
      + pose proof (IH s ltac:(lia)) as Hs.
        destruct (Text.splitlines s) as [|line lines].
        * repeat constructor. cbn. now rewrite Hc.
        * apply Forall_cons_iff in Hs as [Hl Hls].
          constructor; [cbn; now rewrite Hc, Hl | exact Hls]. }
  exact (H (String.length s) s (le_n _)).
Qed.

(** ** The YAML transformer *)

Lemma transform_lines_content n lines :
  filter Py.truthy (transform_lines n lines) = filter Py.truthy lines.
Proof.
  revert n. induction lines as [|l lines IH]; intros n; [reflexivity|].
  cbn [transform_lines]. rewrite !filter_app, IH.
  destruct (negb (n =? 0)%nat && negb (String.prefix " " l))%bool;
    cbn [filter Py.truthy app]; destruct (Py.truthy l); reflexivity.
Qed.

Lemma transform_lines_no_break n lines :
  Forall (fun line => Text.has_linebreak line = false) lines ->
  Forall (fun line => Text.has_linebreak line = false)
    (transform_lines n lines).
Proof.
  revert n. induction lines as [|l lines IH]; intros n H; [constructor|].
  apply Forall_cons_iff in H as [Hl H]. cbn [transform_lines].
  apply Forall_app. split.
  - destruct (negb (n =? 0)%nat && negb (String.prefix " " l))%bool;
      repeat constructor.
  - constructor; [exact Hl | now apply IH].
Qed.

Lemma transform_lines_nonempty n lines :
  lines <> [] -> transform_lines n lines <> [].
Proof.
  destruct lines as [|l lines]; [congruence|]. intros _. cbn [transform_lines].
  destruct (negb (n =? 0)%nat && negb (String.prefix " " l))%bool; discriminate.
Qed.

(** After the first line, every line that is not empty and does not start
    with a space comes right after an empty line. *)
Lemma transform_lines_later n lines : forall i line,
  1 <= n ->
  nth_error (transform_lines n lines) i = Some line ->
  line <> EmptyString -> String.prefix " " line = false ->
  exists j, i = S j
    /\ nth_error (transform_lines n lines) j = Some EmptyString.
Proof.
  revert n. induction lines as [|l lines IH]; intros n i line Hn Hi Hne Htop.
  - destruct i; discriminate.
  - cbn [transform_lines] in *.
    assert (H0 : (n =? 0)%nat = false) by (apply Nat.eqb_neq; lia).
    rewrite H0 in *. cbn [negb andb] in *.
    destruct (String.prefix " " l) eqn:Hl; cbn [negb app] in *.
    + destruct i as [|i]; [cbn in Hi; congruence|]. cbn [nth_error] in Hi.
      destruct (IH (S n) i line ltac:(lia) Hi Hne Htop) as (j & -> & Hj).
      exists (S j). split; [reflexivity | exact Hj].
    + destruct i as [|[|i]]; cbn [nth_error] in Hi.
      * congruence.
      * exists 0. split; reflexivity.
      * destruct (IH (S n) i line ltac:(lia) Hi Hne Htop) as (j & -> & Hj).
        exists (S (S j)). split; [reflexivity | exact Hj].
Qed.

Lemma yaml_transformer_lines value :
  Text.splitlines value <> [] ->
  Text.splitlines (yaml_transformer value)
  = transform_lines 0 (Text.splitlines value).
Proof.
  intros Hne. unfold yaml_transformer. apply splitlines_join.
  - now apply transform_lines_nonempty.
  - apply transform_lines_no_break, splitlines_no_break.
Qed.

(** X14.  The YAML transformer changes a document by empty lines only: the
    lines of its result that are not empty are those of its argument, in
    their order; and in its result every line after the first that is not
    empty and does not start with a space comes right after an empty
    line. *)
Theorem yaml_transformer_sections value :
  filter Py.truthy (Text.splitlines (yaml_transformer value))
  = filter Py.truthy (Text.splitlines value)
  /\ (forall i line,
        nth_error (Text.splitlines (yaml_transformer value)) (S i) = Some line ->
        line <> EmptyString -> String.prefix " " line = false ->
        nth_error (Text.splitlines (yaml_transformer value)) i
        = Some EmptyString).
Proof.
  destruct (Text.splitlines value) as [|l lines] eqn:Hs.
  - unfold yaml_transformer. rewrite Hs. cbn. split; [reflexivity|].
    intros i line H. destruct i; discriminate.
  - rewrite yaml_transformer_lines by (rewrite Hs; discriminate).
    rewrite Hs. split; [apply transform_lines_content|].
    intros i line Hi Hne Htop. cbn [transform_lines Nat.eqb negb andb app] in *.
    cbn [nth_error] in Hi.
    destruct (transform_lines_later 1 lines i line (le_n 1) Hi Hne Htop)
      as (j & -> & Hj).
    exact Hj.
Qed.

Lemma yaml_transformer_sections_witness :
  nth_error
    (Text.splitlines
       (yaml_transformer
          ("trigger:" ++ Text.newline ++ "  batch: true" ++ Text.newline
           ++ "pool: Standard" ++ Text.newline))) 2
  = Some EmptyString.
Proof.
  apply (proj2 (yaml_transformer_sections
                  ("trigger:" ++ Text.newline ++ "  batch: true"
                   ++ Text.newline ++ "pool: Standard" ++ Text.newline))
           2 "pool: Standard").
  - reflexivity.
  - discriminate.
  - reflexivity.
Defined.

(** ** The script patch *)

Lemma reverse_onto_app (a b acc : string) :
  Text.reverse_onto (a ++ b) acc
  = Text.reverse_onto b (Text.reverse_onto a acc).
Proof.
  revert acc. induction a as [|c a IH]; intros acc; [reflexivity|].
  cbn [String.append Text.reverse_onto]. apply IH.
Qed.

Lemma guard_not_trap line : matches_trap_cleanup (guard line) = false.
Proof. reflexivity. Qed.

Lemma guard_not_check line : matches_check_matrix (guard line) = false.
Proof.
  unfold matches_check_matrix, Text.endswith, Text.reverse, guard,
    Text.double_quote, Text.newline.
  cbn [String.append Text.reverse_onto].
  rewrite reverse_onto_app. reflexivity.
Qed.

Lemma guard_not_docker line ending :
  String.eqb (guard line) (common ++ ending) = false.
Proof. reflexivity. Qed.

Lemma guard_no_break line :
  Text.has_linebreak (guard line) = Text.has_linebreak line.
Proof.
  unfold guard. rewrite !has_linebreak_app.
  destruct (Text.has_linebreak line); vm_compute; reflexivity.
Qed.

Lemma patch_line_guard line : patch_line (guard line) = guard line.
Proof.
  unfold patch_line.
  rewrite guard_not_trap, guard_not_check, !guard_not_docker. reflexivity.
Qed.

Lemma patch_line_cases line :
  patch_line line = guard line
  \/ patch_line line = common ++ drydock_and_pipelines
  \/ patch_line line = common ++ drydock_shippable_and_pipelines
  \/ (patch_line line = line
      /\ matches_trap_cleanup line = false
      /\ matches_check_matrix line = false
      /\ String.eqb line (common ++ drydock_only) = false
      /\ String.eqb line (common ++ drydock_and_shippable) = false).
Proof.
  unfold patch_line.
  destruct (matches_trap_cleanup line) eqn:H1.
  - left. now rewrite guard_not_check, !guard_not_docker.
  - destruct (matches_check_matrix line) eqn:H2.
    + left. now rewrite !guard_not_docker.
    + destruct (String.eqb line (common ++ drydock_only)) eqn:H3.
      * right. left. reflexivity.
      * destruct (String.eqb line (common ++ drydock_and_shippable)) eqn:H4.
        -- right. right. left. reflexivity.
        -- right. right. right. auto.
Qed.

Lemma patch_line_twice line : patch_line (patch_line line) = patch_line line.
Proof.
  destruct (patch_line_cases line)
    as [-> | [-> | [-> | (Hp & H1 & H2 & H3 & H4)]]].
  - apply patch_line_guard.
  - reflexivity.
  - reflexivity.
  - rewrite Hp. unfold patch_line. now rewrite H1, H2, H3, H4.
Qed.

Lemma patch_line_no_break line :
  Text.has_linebreak line = false ->
  Text.has_linebreak (patch_line line) = false.
Proof.
  intros H.
  destruct (patch_line_cases line) as [-> | [-> | [-> | [-> _]]]].
  - now rewrite guard_no_break.
  - reflexivity.
  - reflexivity.
  - exact H.
Qed.

Lemma patched_lines_no_break text :
  Forall (fun line => Text.has_linebreak line = false)
    (map patch_line (Text.splitlines text)).
Proof.
  apply Forall_map. eapply Forall_impl; [|apply splitlines_no_break].
  intros line. apply patch_line_no_break.
Qed.

(** X15.  Patching a script is idempotent: a patched line is left as it is
    by the patch, and so is a patched script.  The patch keeps the lines
    apart: the lines of the patched script are the patched lines of the
    script. *)
Theorem patch_script_idempotent text :
  (forall line, patch_line (patch_line line) = patch_line line)
  /\ patch_script (patch_script text) = patch_script text
  /\ (Text.splitlines text <> [] ->
      Text.splitlines (patch_script text)
      = map patch_line (Text.splitlines text)).
Proof.
  split; [exact patch_line_twice|].
  assert (Hlines : Text.splitlines text <> [] ->
                   Text.splitlines (patch_script text)
                   = map patch_line (Text.splitlines text)).
  { intros Hne. unfold patch_script. apply splitlines_join.
    - destruct (Text.splitlines text); [congruence | discriminate].
    - apply patched_lines_no_break. }
  split; [|exact Hlines].
  destruct (Text.splitlines text) as [|l lines] eqn:Hs.
  - unfold patch_script. rewrite Hs. reflexivity.
  - unfold patch_script at 1. rewrite Hlines by discriminate.
    rewrite map_map. unfold patch_script. rewrite Hs.
    apply f_equal2; [|reflexivity]. apply f_equal.
    apply map_ext. exact patch_line_twice.
Qed.

Lemma patch_script_idempotent_witness :
  Text.splitlines
    (patch_script ("set -e" ++ Text.newline ++ "trap cleanup EXIT"
                   ++ Text.newline))
  = ["set -e"; guard "trap cleanup EXIT"].
Proof.
  apply (proj2 (proj2 (patch_script_idempotent
                         ("set -e" ++ Text.newline ++ "trap cleanup EXIT"
                          ++ Text.newline)))).
  discriminate.
Defined.

(** ** The order of the groups *)

Lemma ascii_compare_trans (a b c : ascii) :
  Ascii.compare a b = Lt -> Ascii.compare b c = Lt -> Ascii.compare a c = Lt.
Proof.
  unfold Ascii.compare. rewrite !N.compare_lt_iff. apply N.lt_trans.
Qed.

Lemma string_compare_lt_trans (a : string) : forall b c,
  String.compare a b = Lt -> String.compare b c = Lt ->
  String.compare a c = Lt.
Proof.
  induction a as [|x a IH]; intros [|y b] [|z c]; cbn [String.compare];
    try discriminate; try reflexivity.
  destruct (Ascii.compare x y) eqn:Hxy; try discriminate.
  - apply Ascii.compare_eq_iff in Hxy. subst y.
    destruct (Ascii.compare x z); try discriminate; [apply IH | reflexivity].
  - intros _. destruct (Ascii.compare y z) eqn:Hyz; try discriminate.
    + apply Ascii.compare_eq_iff in Hyz. subst z. now rewrite Hxy.
    + now rewrite (ascii_compare_trans _ _ _ Hxy Hyz).
Qed.

Lemma string_compare_refl (a : string) : String.compare a a = Eq.
Proof.
  induction a as [|x a IH]; [reflexivity|]. cbn [String.compare].
  unfold Ascii.compare. now rewrite N.compare_refl.
Qed.

Lemma leb_trans (a b c : string) :
  String.leb a b = true -> String.leb b c = true -> String.leb a c = true.
Proof.
  unfold String.leb.
  destruct (String.compare a b) eqn:Hab; try discriminate;
    destruct (String.compare b c) eqn:Hbc; try discriminate; intros _ _.
  - apply String.compare_eq_iff in Hab, Hbc. subst.
    now rewrite string_compare_refl.
  - apply String.compare_eq_iff in Hab. subst. now rewrite Hbc.
  - apply String.compare_eq_iff in Hbc. subst. now rewrite Hab.
  - now rewrite (string_compare_lt_trans _ _ _ Hab Hbc).
Qed.

Lemma leb_false (a b : string) :
  String.leb a b = false -> String.leb b a = true.
Proof.
  intros H. destruct (String.leb_total a b) as [H'|H']; congruence.
Qed.

Lemma insert_sorted_swap (x y : string) (l : list string) :
  insert_sorted x (insert_sorted y l) = insert_sorted y (insert_sorted x l).
Proof.
  induction l as [|z l IH]; cbn [insert_sorted].
  - destruct (String.leb x y) eqn:Hxy, (String.leb y x) eqn:Hyx;
      try reflexivity.
    + now rewrite (String.leb_antisym _ _ Hxy Hyx).
    + apply leb_false in Hxy. congruence.
  - destruct (String.leb y z) eqn:Hyz, (String.leb x z) eqn:Hxz;
      cbn [insert_sorted]; rewrite ?Hyz, ?Hxz.
    + destruct (String.leb x y) eqn:Hxy, (String.leb y x) eqn:Hyx;
        try reflexivity.
      * now rewrite (String.leb_antisym _ _ Hxy Hyx).
      * apply leb_false in Hxy. congruence.
    + assert (Hxy : String.leb x y = false).
      { destruct (String.leb x y) eqn:H; [|reflexivity].
        now rewrite (leb_trans _ _ _ H Hyz) in Hxz. }
      now rewrite Hxy.
    + assert (Hyx : String.leb y x = false).
      { destruct (String.leb y x) eqn:H; [|reflexivity].
        now rewrite (leb_trans _ _ _ H Hxz) in Hyz. }
      now rewrite Hyx.
    + now rewrite IH.
Qed.

Lemma sorted_permutation (l1 l2 : list string) :
  Permutation l1 l2 -> sorted l1 = sorted l2.
Proof.
  unfold sorted. induction 1 as [|x l1 l2 _ IH|x y l|l1 l2 l3 _ IH1 _ IH2];
    cbn [fold_right].
  - reflexivity.
  - now rewrite IH.
  - apply insert_sorted_swap.
  - now rewrite IH1.
Qed.

Lemma insert_sorted_permutation (x : string) (l : list string) :
  Permutation (x :: l) (insert_sorted x l).
Proof.
  induction l as [|y l IH]; cbn [insert_sorted]; [reflexivity|].
  destruct (String.leb x y); [reflexivity|].
  rewrite perm_swap. now apply perm_skip.
Qed.

Lemma insert_sorted_sorted (x : string) (l : list string) :
  Sorted (fun a b => String.leb a b = true) l ->
  Sorted (fun a b => String.leb a b = true) (insert_sorted x l).
Proof.
  induction 1 as [|y l Hs IH Hd]; cbn [insert_sorted];
    [repeat constructor|].
  destruct (String.leb x y) eqn:Hxy.
  - repeat constructor; assumption.
  - constructor; [exact IH|].
    destruct l as [|z l]; cbn [insert_sorted].
    + constructor. now apply leb_false.
    + destruct (String.leb x z); constructor;
        [now apply leb_false | now inversion Hd].
Qed.

(** X16.  The groups that a stage emits do not depend on the order in
    which its set of groups is enumerated: [clean_values] gives one result
    for all arrangements of its argument, which it reads in ascending
    order of strings, and so do the group list and the path suffix of a
    stage. *)
Theorem clean_values_order :
  (forall l1 l2, Permutation l1 l2 -> clean_values l1 = clean_values l2)
  /\ (forall l,
        Sorted (fun a b => String.leb a b = true) (sorted l)
        /\ Permutation l (sorted l)
        /\ clean_values l = map clean_value (sorted l))
  /\ (forall s1 s2,
        Permutation (Stage.groups s1) (Stage.groups s2) ->
        stage_groups s1 = stage_groups s2
        /\ test_suffix s1 = test_suffix s2).
Proof.
  split; [|split].
  - intros l1 l2 H. unfold clean_values. now rewrite (sorted_permutation _ _ H).
  - intros l. split; [|split; [|reflexivity]].
    + unfold sorted. induction l as [|x l IH]; [constructor|].
      cbn [fold_right]. now apply insert_sorted_sorted.
    + unfold sorted. induction l as [|x l IH]; [constructor|].
      cbn [fold_right]. rewrite <- insert_sorted_permutation.
      now apply perm_skip.
  - intros s1 s2 H. unfold stage_groups, test_suffix.
    pose proof (Permutation_length H) as Hlen.
    destruct (Stage.groups s1) as [|a [|b l1]] eqn:H1;
      destruct (Stage.groups s2) as [|c [|d l2]] eqn:H2;
      try discriminate; try (split; reflexivity).
    + apply Permutation_length_1 in H. subst. split; reflexivity.
    + split; [|reflexivity]. apply f_equal. unfold clean_values.
      now rewrite (sorted_permutation _ _ H).
Qed.

Lemma clean_values_order_witness :
  clean_values ["2"; "10"; "1"] = clean_values ["10"; "1"; "2"].
Proof.
  apply (proj1 clean_values_order).
  apply (perm_trans (perm_swap "10" "2" ["1"])).
  apply perm_skip. apply perm_swap.
Defined.

(** ** The prefix scan is maximal *)

Lemma distinct_constant (tuples : list (list string)) (q : list string) :
  tuples <> [] -> (forall t, In t tuples -> t = q) -> distinct tuples = [q].
Proof.
  unfold distinct. induction tuples as [|t tuples IH]; [congruence|].
  intros _ Hall. cbn [nodup].
  assert (Ht : t = q) by (apply Hall; now left). subst t.
  destruct tuples as [|t' tuples].
  - destruct (in_dec (list_eq_dec string_dec) q []) as [[]|_]. reflexivity.
  - assert (Hq : t' = q) by (apply Hall; right; now left). subst t'.
    destruct (in_dec (list_eq_dec string_dec) q (q :: tuples)) as [_|Hn].
    + apply IH; [discriminate|]. intros t Ht. apply Hall. now right.
    + exfalso. apply Hn. now left.
Qed.

Lemma last_item_In prefix x : last_item prefix = Ok x -> In x prefix.
Proof.
  induction prefix as [|a l IH]; [discriminate|].
  destruct l as [|b l]; [intros [= <-]; now left|].
  change (last_item (a :: b :: l)) with (last_item (b :: l)).
  intros H. right. now apply IH.
Qed.

Lemma last_item_snoc l x : last_item (l ++ [x]) = Ok x.
Proof.
  induction l as [|a l IH]; [reflexivity|].
  destruct l as [|b l]; [reflexivity|]. exact IH.
Qed.

Lemma firstn_succ {A : Type} (k : nat) (t : list A) :
  firstn (S k) t = firstn k t
  \/ exists x, firstn (S k) t = (firstn k t ++ [x])%list.
Proof.
  revert t. induction k as [|k IH]; intros [|a t].
  - now left.
  - right. exists a. reflexivity.
  - now left.
  - rewrite (firstn_cons (S k)), (firstn_cons k).
    destruct (IH t) as [->|[x ->]]; [now left|]. right. exists x. reflexivity.
Qed.

Lemma firstn_short {A : Type} (k : nat) (t : list A) :
  length (firstn k t) < k -> forall j, length (firstn k t) <= j ->
  firstn j t = firstn k t.
Proof.
  intros Hlt j Hj. rewrite length_firstn in Hlt, Hj.
  assert (Hlen : length t < k) by lia.
  rewrite (firstn_all2 (n := k)) by lia.
  apply firstn_all2. lia.
Qed.

Lemma scan_prefix_maximal components :
  components <> [] ->
  Forall (fun t => t <> []) components ->
  forall n a found prefix,
    1 <= a ->
    (forall t, In t components -> firstn (a - 1) t = found) ->
    Forall (fun s => Py.truthy s = true) found ->
    scan_prefix components (seq a n) found = Ok prefix ->
    Forall (fun s => Py.truthy s = true) prefix
    /\ (length prefix < a + n - 1 ->
        forall q,
          length q = S (length prefix) ->
          (forall t, In t components -> firstn (S (length prefix)) t = q) ->
          ~ Forall (fun s => Py.truthy s = true) q).
Proof.
  intros Hne Hall.
  assert (Hshort : forall a found q,
            (forall t, In t components -> firstn (a - 1) t = found) ->
            length found < a - 1 ->
            length q = S (length found) ->
            (forall t, In t components -> firstn (S (length found)) t = q) ->
            False).
  { intros a found q Hf Hlt Hq Hc.
    destruct components as [|t ts]; [congruence|].
    pose proof (Hf t (or_introl eq_refl)) as Ht.
    pose proof (Hc t (or_introl eq_refl)) as Hqt.
    rewrite <- Ht in Hlt, Hqt.
    rewrite (firstn_short _ _ Hlt) in Hqt by lia.
    rewrite Ht in Hqt. subst q. lia. }
  induction n as [|n IH]; intros a found prefix Ha Hf Ht; cbn [seq scan_prefix].
  - intros [= <-]. split; [exact Ht|]. intros Hlt q Hq Hc _.
    apply (Hshort a found q Hf); [lia | exact Hq | exact Hc].
  - assert (Hstop : length found < a + S n - 1 ->
              (forall q, (forall t, In t components -> firstn a t = q) ->
                         length q = a ->
                         ~ Forall (fun s => Py.truthy s = true) q) ->
              forall q,
                length q = S (length found) ->
                (forall t, In t components -> firstn (S (length found)) t = q) ->
                ~ Forall (fun s => Py.truthy s = true) q).
    { intros _ Hat q Hq Hc.
      assert (Hle : length found <= a - 1).
      { destruct components as [|t ts]; [congruence|].
        rewrite <- (Hf t (or_introl eq_refl)), length_firstn. lia. }
      destruct (Nat.eq_dec (length found) (a - 1)) as [He|Hn].
      - apply Hat; [|lia]. intros t Hin.
        replace a with (S (length found)) by lia. now apply Hc.
      - intros _. apply (Hshort a found q Hf); [lia | exact Hq | exact Hc]. }
    destruct (distinct (map (firstn a) components)) as [|p [|p' ps]] eqn:Hd.
    + intros [= <-]. split; [exact Ht|]. intros Hlt. apply Hstop; [exact Hlt|].
      intros q Hc _ _.
      rewrite (distinct_constant (map (firstn a) components) q) in Hd.
      * discriminate.
      * destruct components; [congruence | discriminate].
      * intros t Hin. apply in_map_iff in Hin as (t' & <- & Hin). now apply Hc.
    + assert (Hp : forall t, In t components -> firstn a t = p).
      { intros t Hin. apply (distinct_single _ _ Hd). now apply in_map. }
      destruct (last_item p) as [x|] eqn:Hx; cbn [bind]; [|discriminate].
      destruct (Py.truthy x) eqn:Htx; cbn [negb].
      * intros Hs.
        assert (Htp : Forall (fun s => Py.truthy s = true) p).
        { destruct components as [|t ts]; [congruence|].
          pose proof (Hp t (or_introl eq_refl)) as Hpt.
          pose proof (Hf t (or_introl eq_refl)) as Hft.
          destruct a as [|a']; [lia|].
          replace (S a' - 1) with a' in Hft by lia.
          destruct (firstn_succ a' t) as [He|[y He]];
            rewrite Hpt, Hft in He.
          - now rewrite He.
          - rewrite He in Hx |- *. rewrite last_item_snoc in Hx.
            injection Hx as ->. apply Forall_app. split; [exact Ht|].
            now repeat constructor. }
        destruct (IH (S a) p prefix) as [H1 H2]; try assumption; [lia | |].
        -- intros t Hin. replace (S a - 1) with a by lia. now apply Hp.
        -- split; [exact H1|]. intros Hlt. apply H2. lia.
      * intros [= <-]. split; [exact Ht|]. intros Hlt.
        apply Hstop; [exact Hlt|]. intros q Hc _ Hq.
        assert (Heq : q = p).
        { destruct components as [|t ts]; [congruence|].
          now rewrite <- (Hc t (or_introl eq_refl)),
            <- (Hp t (or_introl eq_refl)). }
        subst q. apply last_item_In in Hx.
        pose proof (proj1 (Forall_forall _ _) Hq _ Hx). congruence.
    + intros [= <-]. split; [exact Ht|]. intros Hlt. apply Hstop; [exact Hlt|].
      intros q Hc _ _.
      rewrite (distinct_constant (map (firstn a) components) q) in Hd.
      * discriminate.
      * destruct components; [congruence | discriminate].
      * intros t Hin. apply in_map_iff in Hin as (t' & <- & Hin). now apply Hc.
Qed.

(** X17.  The prefix scan finds the longest prefix it may: the prefix it
    returns for a set of non-empty tuples holds no empty token, and when it
    has fewer than nine tokens there is no common leading sequence with one
    token more that is free of empty tokens. *)
Theorem common_prefix_maximal components prefix :
  components <> [] ->
  Forall (fun t => t <> []) components ->
  common_prefix components = Ok prefix ->
  Forall (fun s => Py.truthy s = true) prefix
  /\ (length prefix < 9 ->
      forall q,
        length q = S (length prefix) ->
        (forall t, In t components -> firstn (S (length prefix)) t = q) ->
        ~ Forall (fun s => Py.truthy s = true) q).
Proof.
  intros Hne Hall Hc.
  destruct (scan_prefix_maximal components Hne Hall 9 1 [] prefix)
    as [H1 H2];
    [lia | intros t _; reflexivity | constructor | exact Hc |].
  split; [exact H1|]. intros Hlt. apply H2. lia.
Qed.

Lemma common_prefix_maximal_witness :
  Forall (fun s => Py.truthy s = true) ["devel"; "units"]
  /\ ~ Forall (fun s => Py.truthy s = true) ["devel"; "units"; EmptyString].
Proof.
  destruct (common_prefix_maximal
              [["devel"; "units"; EmptyString; "x"];
               ["devel"; "units"; EmptyString; "y"]]
              ["devel"; "units"]) as [H1 H2].
  - discriminate.
  - repeat constructor; discriminate.
  - reflexivity.
  - split; [exact H1|]. apply H2.
    + simpl. lia.
    + reflexivity.
    + intros t [<-|[<-|[]]]; reflexivity.
Defined.
